(** * Planner assistant: session store, interaction memory and weekly report

    A shallow embedding of [app/services/memory.py], [app/services/storage.py]
    and the parts of [app/services/planner.py], [app/schemas.py] and
    [app/ui/routes.py] they rely on or are used by, followed by the
    properties established about them.

    Conventions of the embedding.
    - A Python [str] is a list of code points; the code points are the 256
      values of [ascii] (the Latin-1 range), on which [str.lower] and
      [str.split] act character by character.
    - A Python [dict] is an association list in insertion order: lookup
      returns the first binding of a key, assignment replaces the value in
      place or appends a new binding at the end.
    - A Python [int] is a [Z]; [date], [time] and [datetime] values are the
      integers that order them (day ordinal, time of day, instant).
    - The wall clock ([datetime.utcnow], [date.today]) and the identifier
      generator ([uuid4]) are inputs of the operations that read them. *)

From Stdlib Require Import ZArith QArith Ascii String Sorting.Sorted Sorting.Permutation.
From stdpp Require Import base decidable list strings.

Local Open Scope Z_scope.

(** ** Python values *)

Module Py.

Definition str := list ascii.

Definition lit (s : string) : str := list_ascii_of_string s.

(** [ch.isspace()] on the Latin-1 range. *)
Definition isspace (c : ascii) : bool :=
  let n := N_of_ascii c in
  ((9 <=? n) && (n <=? 13) || (28 <=? n) && (n <=? 32)
   || (n =? 133) || (n =? 160))%N.

(** [ch.lower()] on the Latin-1 range: A-Z and the accented capitals
    U+00C0..U+00DE (without the multiplication sign U+00D7) move up by 32. *)
Definition lower_char (c : ascii) : ascii :=
  let n := N_of_ascii c in
  if ((65 <=? n) && (n <=? 90)
      || (192 <=? n) && (n <=? 222) && negb (n =? 215))%N
  then ascii_of_N (n + 32) else c.

(** [s.lower()]. On the Latin-1 range it acts character by character;
    the lower-casing that depends on the neighbours of a character (the
    final sigma) lies outside this range and is not modelled. *)
Definition lower (s : str) : str := lower_char <$> s.

(** [s.split()]: maximal runs of characters that are not white space. [cur]
    is the word being read. *)
Fixpoint split_from (cur : str) (s : str) : list str :=
  match s with
  | [] => match cur with [] => [] | _ => [cur] end
  | c :: rest =>
      if isspace c
      then match cur with
           | [] => split_from [] rest
           | _ => cur :: split_from [] rest
           end
      else split_from (cur ++ [c]) rest
  end.

Definition split (s : str) : list str := split_from [] s.

(** A word: not empty and free of white space. *)
Definition is_word (w : str) : Prop :=
  w <> [] /\ Forall (fun c => isspace c = false) w.

(** [t] occurs in [s] as a contiguous run. *)
Definition substring (t s : str) : Prop := exists p q, s = p ++ t ++ q.

Fixpoint startswith (s t : str) {struct t} : bool :=
  match t, s with
  | [], _ => true
  | _ :: _, [] => false
  | a :: t', b :: s' => bool_decide (a = b) && startswith s' t'
  end.

(** [t in s] *)
Fixpoint contains (s t : str) : bool :=
  startswith s t
  || match s with
     | [] => false
     | _ :: s' => contains s' t
     end.

(** [l[start:]] *)
Definition slice_from {A} (l : list A) (start : Z) : list A :=
  let n := Z.of_nat (length l) in
  let start := if start <? 0 then Z.max 0 (n + start) else start in
  drop (Z.to_nat start) l.

(** [l[:stop]] *)
Definition slice_to {A} (l : list A) (stop : Z) : list A :=
  let n := Z.of_nat (length l) in
  let stop := if stop <? 0 then Z.max 0 (n + stop) else stop in
  take (Z.to_nat stop) l.

(** The objects stored in a metadata mapping. *)
Inductive object :=
| None_
| Bool (b : bool)
| Int (n : Z)
| Str (s : str).

(** Truth value of an object, as [or] and [if] test it. *)
Definition truthy (o : object) : bool :=
  match o with
  | None_ => false
  | Bool b => b
  | Int n => negb (n =? 0)
  | Str s => match s with [] => false | _ => true end
  end.

(** [a or b] *)
Definition or_ (a b : object) : object := if truthy a then a else b.

Definition digit (n : nat) : ascii := ascii_of_nat (48 + n).

Fixpoint digits (fuel : nat) (n : N) (acc : str) : str :=
  match fuel with
  | O => acc
  | S fuel =>
      let acc := digit (N.to_nat (n mod 10)) :: acc in
      if (n <? 10)%N then acc else digits fuel (n / 10)%N acc
  end.

(** [str(o)] *)
Definition to_str (o : object) : str :=
  match o with
  | None_ => lit "None"
  | Bool true => lit "True"
  | Bool false => lit "False"
  | Int n =>
      let m := Z.abs_N n in
      let ds := digits (S (N.to_nat (N.log2 m))) m [] in
      if n <? 0 then lit "-" ++ ds else ds
  | Str s => s
  end.

(** [sum(l)] and [max(l)] over integers; [max] of an empty sequence raises
    [ValueError]. *)
Definition sum (l : list Z) : Z := foldl Z.add 0 l.

Definition max (l : list Z) : option Z :=
  match l with
  | [] => None
  | x :: rest => Some (foldl Z.max x rest)
  end.

(** [sorted(l, key=key, reverse=True)]: the stable sort into descending key
    order, in which items of equal key keep their relative order. *)
Section Sorted.
Context {A : Type} (key : A -> Z).

Fixpoint insert_reverse (x : A) (l : list A) : list A :=
  match l with
  | [] => [x]
  | y :: rest =>
      if key y <=? key x then x :: y :: rest else y :: insert_reverse x rest
  end.

Definition sorted_reverse (l : list A) : list A :=
  foldr insert_reverse [] l.

End Sorted.

(** *** Insertion-ordered dictionaries *)

Section Dict.
Context {K V : Type} `{EqDecision K}.

Definition dict := list (K * V).

(** [d.get(k)] *)
Fixpoint get (d : dict) (k : K) : option V :=
  match d with
  | [] => None
  | (k', v) :: rest => if decide (k' = k) then Some v else get rest k
  end.

(** [d[k] = v] *)
Fixpoint set (d : dict) (k : K) (v : V) : dict :=
  match d with
  | [] => [(k, v)]
  | (k', v') :: rest =>
      if decide (k' = k) then (k', v) :: rest else (k', v') :: set rest k v
  end.

(** [d.keys()], [d.values()] *)
Definition keys (d : dict) : list K := d.*1.
Definition values (d : dict) : list V := d.*2.

End Dict.

Arguments dict : clear implicits.

(** *** Further string methods *)

Definition LF : ascii := "010"%char.
Definition CR : ascii := "013"%char.

(** [s.lstrip()], [s.rstrip()], [s.strip()] *)
Fixpoint lstrip (s : str) : str :=
  match s with
  | [] => []
  | c :: rest => if isspace c then lstrip rest else s
  end.

Definition rstrip (s : str) : str := reverse (lstrip (reverse s)).

Definition strip (s : str) : str := rstrip (lstrip s).

(** [s.replace(old, new)] where [old] and [new] are one character each. *)
Definition replace_char (old new : ascii) (s : str) : str :=
  (fun c => if decide (c = old) then new else c) <$> s.

(** [s.split(sep)] where [sep] is one character: the fields between the
    separators, the empty ones included. [cur] is the field being read. *)
Fixpoint split_on_from (sep : ascii) (cur : str) (s : str) : list str :=
  match s with
  | [] => [cur]
  | c :: rest =>
      if decide (c = sep) then cur :: split_on_from sep [] rest
      else split_on_from sep (cur ++ [c]) rest
  end.

Definition split_on (sep : ascii) (s : str) : list str :=
  split_on_from sep [] s.

(** [sep.join(l)] *)
Fixpoint join (sep : str) (l : list str) : str :=
  match l with
  | [] => []
  | x :: rest =>
      match rest with
      | [] => x
      | _ :: _ => x ++ sep ++ join sep rest
      end
  end.

(** Text without white space at either end. *)
Definition stripped (s : str) : Prop :=
  (forall c, head s = Some c -> isspace c = false)
  /\ (forall c, last s = Some c -> isspace c = false).

(** *** Calendar dates

    [date.isoformat] on day ordinals, after [_ord2ymd] of the [datetime]
    module; it is meant for the ordinals of the years 1 to 9999. *)

Definition days_before_month (month : Z) : Z :=
  nth (Z.to_nat month) [0; 0; 31; 59; 90; 120; 151; 181; 212; 243; 273; 304; 334] 0.

Definition days_in_month (month : Z) : Z :=
  nth (Z.to_nat month) [0; 31; 28; 31; 30; 31; 30; 31; 31; 30; 31; 30; 31] 0.

Definition ord2ymd (n : Z) : Z * Z * Z :=
  let n := n - 1 in
  let n400 := n / 146097 in
  let n := n mod 146097 in
  let year := n400 * 400 + 1 in
  let n100 := n / 36524 in
  let n := n mod 36524 in
  let n4 := n / 1461 in
  let n := n mod 1461 in
  let n1 := n / 365 in
  let n := n mod 365 in
  let year := year + n100 * 100 + n4 * 4 + n1 in
  if (n1 =? 4) || (n100 =? 4) then (year - 1, 12, 31)
  else
    let leapyear := (n1 =? 3) && (negb (n4 =? 24) || (n100 =? 3)) in
    let month := Z.shiftr (n + 50) 5 in
    let preceding :=
      days_before_month month
      + (if (2 <? month) && leapyear then 1 else 0) in
    if n <? preceding then
      let month := month - 1 in
      let preceding :=
        preceding
        - (days_in_month month
           + (if (month =? 2) && leapyear then 1 else 0)) in
      (year, month, n - preceding + 1)
    else (year, month, n - preceding + 1).

(** ["%0{width}d" % n] for [n] that is not negative. *)
Definition zero_padded (width : nat) (n : Z) : str :=
  let ds := to_str (Int n) in
  replicate (width - length ds) "0"%char ++ ds.

(** ["%04d-%02d-%02d" % (year, month, day)] *)
Definition isoformat (d : Z) : str :=
  let '(year, month, day) := ord2ymd d in
  zero_padded 4 year ++ lit "-" ++ zero_padded 2 month
  ++ lit "-" ++ zero_padded 2 day.

End Py.

(** Values of the [datetime] and [uuid] modules. *)
Abbreviation date := Z.
Abbreviation time := Z.
Abbreviation datetime := Z.
Abbreviation UUID := N.

(** ** Interaction memory ([app/services/memory.py]) *)

Module Memory.
Import Py.

Record MemoryRecord := {
  user_input : str;
  ai_response : str;
  metadata : dict str object;
  created_at : datetime;
}.

(** [MemoryService]: its only attribute is [_sessions], the buckets. *)
Record MemoryService := {
  _sessions : dict str (list MemoryRecord);
}.

Definition init : MemoryService := {| _sessions := [] |}.

(** The bucket key of [add_interaction]:
    [metadata.get("session_id") or metadata.get("date") or date.today().isoformat()],
    then [str(...)]. [today] is the text of [date.today().isoformat()]. *)
Definition bucket_key (today : str) (metadata : dict str object) : str :=
  let session_id :=
    or_ (or_ (default None_ (get metadata (lit "session_id")))
             (default None_ (get metadata (lit "date"))))
        (Str today) in
  to_str session_id.

(** [self._sessions.setdefault(key, []).append(record)] *)
Definition setdefault_append
    (sessions : dict str (list MemoryRecord)) (key : str) (record : MemoryRecord)
    : dict str (list MemoryRecord) :=
  match get sessions key with
  | Some bucket => set sessions key (bucket ++ [record])
  | None => set sessions key ([] ++ [record])
  end.

(** [add_interaction]; [today] and [now] are the clock readings. *)
Definition add_interaction (today : str) (now : datetime) (self : MemoryService)
    (user_input ai_response : str) (metadata : dict str object) : MemoryService :=
  let session_id := bucket_key today metadata in
  let record := {| user_input := user_input; ai_response := ai_response;
                   metadata := metadata; created_at := now |} in
  {| _sessions := setdefault_append (_sessions self) session_id record |}.

(** [{token.lower() for token in query.split() if token}]. The set is kept
    as a duplicate-free list; [all] below does not depend on its order. *)
Definition query_tokens (query : str) : list str :=
  remove_dups (lower <$> filter (fun token => token <> []) (split query)).

(** [f"{record.user_input} {record.ai_response}".lower()] *)
Definition haystack (record : MemoryRecord) : str :=
  lower (user_input record ++ lit " " ++ ai_response record).

(** [all(token in haystack for token in tokens)] *)
Definition all_tokens_in (tokens : list str) (record : MemoryRecord) : bool :=
  forallb (fun token => contains (haystack record) token) tokens.

(** Outcome of a loop body that may [return] from the enclosing function. *)
Inductive flow (A : Type) :=
| Return (a : A)
| Fallthrough (a : A).
Arguments Return {A} a.
Arguments Fallthrough {A} a.

(** The inner loop [for record in session] of [search_memories]. *)
Fixpoint scan_session (tokens : list str) (limit : Z)
    (session : list MemoryRecord) (matches : list str) : flow (list str) :=
  match session with
  | [] => Fallthrough matches
  | record :: rest =>
      if all_tokens_in tokens record then
        let matches := matches ++ [ai_response record] in
        if Z.of_nat (length matches) >=? limit then Return matches
        else scan_session tokens limit rest matches
      else scan_session tokens limit rest matches
  end.

(** The outer loop [for session in self._sessions.values()] followed by the
    final [return matches]. *)
Fixpoint scan_sessions (tokens : list str) (limit : Z)
    (sessions : list (list MemoryRecord)) (matches : list str) : list str :=
  match sessions with
  | [] => matches
  | session :: rest =>
      match scan_session tokens limit session matches with
      | Return matches => matches
      | Fallthrough matches => scan_sessions tokens limit rest matches
      end
  end.

Definition search_memories (self : MemoryService) (query : str) (limit : Z)
    : list str :=
  scan_sessions (query_tokens query) limit (values (_sessions self)) [].

(** The value of a metadata field that is present and true. *)
Definition present (metadata : dict str object) (field : str) : option object :=
  match get metadata field with
  | Some v => if truthy v then Some v else None
  | None => None
  end.

(** The records in scan order: bucket after bucket, oldest first in each. *)
Definition records (self : MemoryService) : list MemoryRecord :=
  concat (values (_sessions self)).

(** [get_context_for_date]; [isoformat] stands for [date.isoformat]. The
    payload is the pair of its ["recent_memories"] and ["date"] entries. *)
Definition get_context_for_date (isoformat : date -> str)
    (self : MemoryService) (target_date : date) : list str * date :=
  let session_id := isoformat target_date in
  let memories := default [] (get (_sessions self) session_id) in
  (ai_response <$> slice_from memories (- 5), target_date).

Definition summary (self : MemoryService) : dict str Z :=
  [(lit "sessions", Z.of_nat (length (_sessions self)))].

End Memory.

(** ** Data model ([app/schemas.py]) *)

Module MorningContext.
Import Py.

Record t := {
  energy_level : Z;
  top_of_mind : list str;
  intended_focus : str;
  blockers : list str;
}.

(** [energy_level: int = Field(ge=1, le=5)]: what validation guarantees of
    every constructed [MorningContext]. *)
Definition valid (c : t) : Prop := 1 <= energy_level c <= 5.

(** What a caller may pass for [top_of_mind] or [blockers]. *)
Inductive raw :=
| RawNone
| RawStr (s : str)
| RawItems (items : list object)
| RawOther (o : object).

(** The validator [_normalise_strings], run before the fields
    [top_of_mind] and [blockers] are type-checked. *)
Definition _normalise_strings (value : raw) : raw :=
  let normalise items :=
    RawItems (Str <$> (strip <$> (to_str <$>
      filter (fun item => strip (to_str item) <> []) items))) in
  match value with
  | RawNone => RawItems []
  | RawStr s => normalise [Str s]
  | RawItems items => normalise items
  | RawOther o => RawOther o
  end.

End MorningContext.

Module EveningReflection.
Import Py.

Record t := {
  actual_focus : str;
  wins : list str;
  challenges : list str;
  tomorrow_intent : str;
  energy_pattern : list (time * Z);
}.

End EveningReflection.

Module Decision.
Import Py.

Record t := {
  id : UUID;
  session_id : UUID;
  question : str;
  context : str;
  options_considered : list str;
  chosen_option : option str;
  reasoning : option str;
  outcome : option str;
  timestamp : datetime;
}.

End Decision.

Module PlannerEvent.
Import Py.

Record t := {
  timestamp : datetime;
  session_id : UUID;
  description : str;
}.

End PlannerEvent.

Module DailySession.

Record t := {
  id : UUID;
  date : date;
  morning_context : option MorningContext.t;
  evening_reflection : option EveningReflection.t;
  decisions : list Decision.t;
  energy_pattern : list (time * Z);
}.

(** [DailySession(date=session_date)]; [fresh] is the value drawn by
    [uuid4]. *)
Definition new (fresh : UUID) (session_date : Z) : t :=
  {| id := fresh; date := session_date;
     morning_context := None; evening_reflection := None;
     decisions := []; energy_pattern := [] |}.

End DailySession.

Module Task.
Import Py.

Record t := {
  id : UUID;
  title : str;
  due_date : option date;
  status : str;
  source : str;
}.

(** [Task(title=title, due_date=due_date)]; [fresh] is the value drawn by
    [uuid4]. *)
Definition new (fresh : UUID) (title : str) (due : Z) : t :=
  {| id := fresh; title := title; due_date := Some due;
     status := lit "not_started"; source := lit "notion" |}.

End Task.

(** ** Session store ([app/services/storage.py]) *)

Module Storage.
Import Py.

Record InMemoryStore := {
  _sessions : dict date DailySession.t;
  _events : list PlannerEvent.t;
  _tasks : dict UUID Task.t;
}.

Definition init : InMemoryStore :=
  {| _sessions := []; _events := []; _tasks := [] |}.

(** [self._sessions[session_date] = session] *)
Definition store_session (self : InMemoryStore) (session_date : date)
    (session : DailySession.t) : InMemoryStore :=
  {| _sessions := set (_sessions self) session_date session;
     _events := _events self; _tasks := _tasks self |}.

(** Every operation returns its result together with the store it leaves. *)
Definition get_or_create_session (fresh : UUID) (self : InMemoryStore)
    (session_date : date) : DailySession.t * InMemoryStore :=
  match get (_sessions self) session_date with
  | Some session => (session, self)
  | None =>
      let session := DailySession.new fresh session_date in
      (session, store_session self session_date session)
  end.

Definition get_session (self : InMemoryStore) (session_date : date)
    : option DailySession.t :=
  get (_sessions self) session_date.

(** [now] is the reading of [datetime.utcnow().time()]. *)
Definition update_morning_context (fresh : UUID) (now : time)
    (self : InMemoryStore) (session_date : date) (context : MorningContext.t)
    : DailySession.t * InMemoryStore :=
  let '(session, self) := get_or_create_session fresh self session_date in
  let session :=
    {| DailySession.id := DailySession.id session;
       DailySession.date := DailySession.date session;
       DailySession.morning_context := Some context;
       DailySession.evening_reflection := DailySession.evening_reflection session;
       DailySession.decisions := DailySession.decisions session;
       DailySession.energy_pattern :=
         DailySession.energy_pattern session
         ++ [(now, MorningContext.energy_level context)] |} in
  (session, store_session self session_date session).

Definition update_evening_reflection (fresh : UUID)
    (self : InMemoryStore) (session_date : date) (reflection : EveningReflection.t)
    : DailySession.t * InMemoryStore :=
  let '(session, self) := get_or_create_session fresh self session_date in
  let session :=
    {| DailySession.id := DailySession.id session;
       DailySession.date := DailySession.date session;
       DailySession.morning_context := DailySession.morning_context session;
       DailySession.evening_reflection := Some reflection;
       DailySession.decisions := DailySession.decisions session;
       DailySession.energy_pattern :=
         match EveningReflection.energy_pattern reflection with
         | [] => DailySession.energy_pattern session
         | _ :: _ =>
             DailySession.energy_pattern session
             ++ EveningReflection.energy_pattern reflection
         end |} in
  (session, store_session self session_date session).

Definition add_decision (fresh : UUID)
    (self : InMemoryStore) (session_date : date) (decision : Decision.t)
    : DailySession.t * InMemoryStore :=
  let '(session, self) := get_or_create_session fresh self session_date in
  let session :=
    {| DailySession.id := DailySession.id session;
       DailySession.date := DailySession.date session;
       DailySession.morning_context := DailySession.morning_context session;
       DailySession.evening_reflection := DailySession.evening_reflection session;
       DailySession.decisions := DailySession.decisions session ++ [decision];
       DailySession.energy_pattern := DailySession.energy_pattern session |} in
  (session, store_session self session_date session).

(** The generator is read to its end by its only caller. *)
Definition get_sessions_between (self : InMemoryStore) (start end_ : date)
    : list DailySession.t :=
  (filter (fun item => start <= item.1 /\ item.1 <= end_) (_sessions self)).*2.

Definition list_sessions (self : InMemoryStore) : list DailySession.t :=
  sorted_reverse DailySession.date (values (_sessions self)).

Definition add_event (self : InMemoryStore) (event : PlannerEvent.t)
    : InMemoryStore :=
  {| _sessions := _sessions self;
     _events := _events self ++ [event];
     _tasks := _tasks self |}.

Definition recent_events (self : InMemoryStore) (limit : Z)
    : list PlannerEvent.t :=
  slice_from (_events self) (- limit).

Definition recent_decisions (self : InMemoryStore) (limit : Z)
    : list Decision.t :=
  let decisions :=
    foldl (fun decisions session => decisions ++ DailySession.decisions session)
          [] (list_sessions self) in
  let decisions := sorted_reverse Decision.timestamp decisions in
  slice_to decisions limit.

(** *** Histories of session updates *)

Inductive update :=
| Morning (now : time) (context : MorningContext.t)
| Evening (reflection : EveningReflection.t)
| Decide (decision : Decision.t).

Record call := {
  on_date : date;
  fresh_id : UUID;
  what : update;
}.

Definition apply_call (self : InMemoryStore) (c : call) : InMemoryStore :=
  match what c with
  | Morning now context =>
      (update_morning_context (fresh_id c) now self (on_date c) context).2
  | Evening reflection =>
      (update_evening_reflection (fresh_id c) self (on_date c) reflection).2
  | Decide decision =>
      (add_decision (fresh_id c) self (on_date c) decision).2
  end.

Definition run (self : InMemoryStore) (calls : list call) : InMemoryStore :=
  foldl apply_call self calls.

(** The samples a call hands over for [session_date]. *)
Definition samples_for (session_date : date) (c : call) : list (time * Z) :=
  if decide (on_date c = session_date) then
    match what c with
    | Morning now context => [(now, MorningContext.energy_level context)]
    | Evening reflection => EveningReflection.energy_pattern reflection
    | Decide _ => []
    end
  else [].

(** The energy timeline of a date; empty while the date has no session. *)
Definition timeline (self : InMemoryStore) (session_date : date)
    : list (time * Z) :=
  match get_session self session_date with
  | Some session => DailySession.energy_pattern session
  | None => []
  end.

(** The range of an energy level. *)
Definition in_range (sample : time * Z) : Prop := 1 <= sample.2 <= 5.

(** A call whose samples, if any, lie in the range. *)
Definition call_in_range (c : call) : Prop :=
  match what c with
  | Morning _ context => MorningContext.valid context
  | Evening reflection =>
      Forall in_range (EveningReflection.energy_pattern reflection)
  | Decide _ => True
  end.

(** The decisions of every session, whatever the session. *)
Definition all_decisions (self : InMemoryStore) : list Decision.t :=
  values (_sessions self) ≫= DailySession.decisions.

(** Newest first. *)
Definition newer_first (a b : Decision.t) : Prop :=
  Decision.timestamp b <= Decision.timestamp a.

(** *** Tasks and summary *)

(** [self._tasks[task.id] = task] *)
Definition store_task (self : InMemoryStore) (task : Task.t) : InMemoryStore :=
  {| _sessions := _sessions self;
     _events := _events self;
     _tasks := set (_tasks self) (Task.id task) task |}.

Definition upsert_tasks (self : InMemoryStore) (tasks : list Task.t)
    : InMemoryStore :=
  foldl store_task self tasks.

Definition get_tasks_for_date (self : InMemoryStore) (target_date : date)
    : list Task.t :=
  filter (fun task => Task.due_date task = Some target_date)
         (values (_tasks self)).

Definition get_all_tasks (self : InMemoryStore) : list Task.t :=
  values (_tasks self).

(** [today] is the reading of [date.today()]; the three identifiers are the
    values drawn by [uuid4] for the sample tasks. *)
Definition seed_sample_tasks (fresh1 fresh2 fresh3 : UUID) (today : date)
    (self : InMemoryStore) : InMemoryStore :=
  match _tasks self with
  | _ :: _ => self
  | [] =>
      let sample_tasks :=
        [ Task.new fresh1 (lit "Review system design doc") today;
          Task.new fresh2 (lit "Write morning reflection") today;
          Task.new fresh3 (lit "Plan next week's priorities") (today + 1) ] in
      upsert_tasks self sample_tasks
  end.

Definition summary (self : InMemoryStore) : dict str Z :=
  [ (lit "sessions", Z.of_nat (length (_sessions self)));
    (lit "events", Z.of_nat (length (_events self)));
    (lit "tasks", Z.of_nat (length (_tasks self))) ].

(** One session per date, kept under its own date; one task per
    identifier, kept under its own identifier. *)
Definition well_keyed (self : InMemoryStore) : Prop :=
  NoDup (keys (_sessions self))
  /\ Forall (fun item => DailySession.date item.2 = item.1) (_sessions self)
  /\ NoDup (keys (_tasks self))
  /\ Forall (fun item => Task.id item.2 = item.1) (_tasks self).

(** The decisions, morning contexts and reflections a call hands over for
    [session_date]. *)
Definition decisions_for (session_date : date) (c : call) : list Decision.t :=
  if decide (on_date c = session_date) then
    match what c with
    | Decide decision => [decision]
    | _ => []
    end
  else [].

Definition mornings_for (session_date : date) (c : call)
    : list MorningContext.t :=
  if decide (on_date c = session_date) then
    match what c with
    | Morning _ context => [context]
    | _ => []
    end
  else [].

Definition evenings_for (session_date : date) (c : call)
    : list EveningReflection.t :=
  if decide (on_date c = session_date) then
    match what c with
    | Evening reflection => [reflection]
    | _ => []
    end
  else [].

(** What the store keeps for a date; nothing while the date has no
    session. *)
Definition decisions_on (self : InMemoryStore) (session_date : date)
    : list Decision.t :=
  match get_session self session_date with
  | Some session => DailySession.decisions session
  | None => []
  end.

Definition morning_on (self : InMemoryStore) (session_date : date)
    : option MorningContext.t :=
  match get_session self session_date with
  | Some session => DailySession.morning_context session
  | None => None
  end.

Definition evening_on (self : InMemoryStore) (session_date : date)
    : option EveningReflection.t :=
  match get_session self session_date with
  | Some session => DailySession.evening_reflection session
  | None => None
  end.

End Storage.

(** ** Weekly report ([app/services/planner.py]) *)

Module Planner.
Import Py.

(** The lines of a [WeeklyPatternsResponse], kept as the values each line
    prints: the days named after ["High energy on: "], the count of
    ["Captured ... evening reflections this week."], the mean of
    ["Average recorded energy: .../5"]. The mean is the exact quotient; its
    rounding to a float and to two decimals is left out. *)
Inductive highlight :=
| HighEnergyOn (days : list date)
| CapturedReflections (count : Z).

Inductive energy_trend :=
| AverageRecordedEnergy (average : Q).

Inductive summary_line :=
| WeeklyReviewPrepared
| NoSessionsRecorded.

Record WeeklyPatternsResponse := {
  summary : summary_line;
  highlights : list highlight;
  energy_trends : list energy_trend;
}.

(** [level for _, level in session.energy_pattern] *)
Definition levels (session : DailySession.t) : list Z :=
  (DailySession.energy_pattern session).*2.

(** The quotient is exact here. The code divides two integers into a
    float: it rounds the quotient, and raises [OverflowError] on a quotient
    beyond the floats, which the model does not show. *)
Definition _average_energy (sessions : list DailySession.t) : option Q :=
  let points :=
    foldl (fun points session => points ++ levels session) [] sessions in
  match points with
  | [] => None
  | _ :: _ => Some (inject_Z (sum points) / inject_Z (Z.of_nat (length points)))%Q
  end.

(** [session.energy_pattern and max(level for ...) >= 4] *)
Definition is_high_energy (session : DailySession.t) : bool :=
  match max (levels session) with
  | None => false
  | Some m => m >=? 4
  end.

(** [sum(1 for session in sessions if session.evening_reflection)]; a
    reflection object is always true, [None] is false. *)
Definition reflection_count (sessions : list DailySession.t) : Z :=
  sum ((fun _ => 1) <$>
       filter (fun session => is_Some (DailySession.evening_reflection session))
              sessions).

(** [if average_energy:] is false on [None] and on a mean of zero. *)
Definition truthy_average (average : option Q) : bool :=
  match average with
  | None => false
  | Some q => negb (Qeq_bool q 0)
  end.

(** [today] is the reading of [date.today()]. *)
Definition weekly_patterns (today : date) (store : Storage.InMemoryStore)
    : WeeklyPatternsResponse :=
  let start := today - 6 in
  let sessions := Storage.get_sessions_between store start today in
  let high_energy_days :=
    DailySession.date <$> filter (fun session => is_high_energy session) sessions in
  let highlights :=
    match high_energy_days with
    | [] => []
    | _ :: _ => [HighEnergyOn high_energy_days]
    end in
  let highlights := highlights ++ [CapturedReflections (reflection_count sessions)] in
  let average_energy := _average_energy sessions in
  let energy_trends :=
    match average_energy with
    | Some q => if truthy_average average_energy then [AverageRecordedEnergy q] else []
    | None => []
    end in
  {| summary := match sessions with
                | [] => NoSessionsRecorded
                | _ :: _ => WeeklyReviewPrepared
                end;
     highlights := highlights;
     energy_trends := energy_trends |}.

End Planner.

(** ** Requests and responses ([app/schemas.py]) *)

Module EveningReflectionRequest.
Import Py.

Record t := {
  session_date : date;
  actual_focus : str;
  wins : list str;
  challenges : list str;
  tomorrow_intent : str;
  energy_pattern : list (time * Z);
}.

End EveningReflectionRequest.

Module EveningReflectionResponse.
Import Py.

Record t := {
  message : str;
  session : DailySession.t;
}.

End EveningReflectionResponse.

Module DecisionRequest.
Import Py.

Record t := {
  question : str;
  context : str;
  options : list str;
  chosen_option : option str;
  reasoning : option str;
}.

End DecisionRequest.

Module DecisionResponse.
Import Py.

Record t := {
  decision : Decision.t;
  related_context : list str;
}.

End DecisionResponse.

(** ** Workflows ([app/services/planner.py]) *)

Module Workflow.
Import Py.

Record PlannerService := {
  store : Storage.InMemoryStore;
  memory : Memory.MemoryService;
}.

(** [PlannerService(store, memory)]: the constructor seeds the sample
    tasks. *)
Definition new (fresh1 fresh2 fresh3 : UUID) (today : date)
    (store : Storage.InMemoryStore) (memory : Memory.MemoryService)
    : PlannerService :=
  {| store := Storage.seed_sample_tasks fresh1 fresh2 fresh3 today store;
     memory := memory |}.

(** The lines of an evening reflection, as [evening_reflection] collects
    them in [message_lines]. *)
Definition reflection_lines (payload : EveningReflectionRequest.t) : list str :=
  let message_lines :=
    [ lit "Reflection stored.";
      lit "Tomorrow you intend to: "
      ++ EveningReflectionRequest.tomorrow_intent payload ] in
  let message_lines :=
    match EveningReflectionRequest.wins payload with
    | [] => message_lines
    | _ :: _ =>
        message_lines
        ++ [lit "Celebrated wins: "
            ++ join (lit ", ") (EveningReflectionRequest.wins payload)]
    end in
  match EveningReflectionRequest.challenges payload with
  | [] => message_lines
  | _ :: _ =>
      message_lines
      ++ [lit "Challenges noted: "
          ++ join (lit ", ") (EveningReflectionRequest.challenges payload)]
  end.

Section Dated.
(** [date.isoformat] *)
Variable isoformat : date -> str.

(** [evening_reflection]. [fresh] is drawn if the session has to be
    created; [now_event] and [now_record] are the readings of
    [datetime.utcnow] for the event and for the memory record; [today] is
    read by [add_interaction]. *)
Definition evening_reflection (fresh : UUID) (now_event now_record : datetime)
    (today : date) (self : PlannerService) (payload : EveningReflectionRequest.t)
    : EveningReflectionResponse.t * PlannerService :=
  let reflection :=
    {| EveningReflection.actual_focus :=
         EveningReflectionRequest.actual_focus payload;
       EveningReflection.wins := EveningReflectionRequest.wins payload;
       EveningReflection.challenges :=
         EveningReflectionRequest.challenges payload;
       EveningReflection.tomorrow_intent :=
         EveningReflectionRequest.tomorrow_intent payload;
       EveningReflection.energy_pattern :=
         EveningReflectionRequest.energy_pattern payload |} in
  let '(session, store) :=
    Storage.update_evening_reflection fresh (store self)
      (EveningReflectionRequest.session_date payload) reflection in
  let event :=
    {| PlannerEvent.timestamp := now_event;
       PlannerEvent.session_id := DailySession.id session;
       PlannerEvent.description := lit "Evening reflection captured" |} in
  let store := Storage.add_event store event in
  let message_lines :=
    [ lit "Reflection stored.";
      lit "Tomorrow you intend to: "
      ++ EveningReflectionRequest.tomorrow_intent payload ] in
  let message_lines :=
    match EveningReflectionRequest.wins payload with
    | [] => message_lines
    | _ :: _ =>
        message_lines
        ++ [lit "Celebrated wins: "
            ++ join (lit ", ") (EveningReflectionRequest.wins payload)]
    end in
  let message_lines :=
    match EveningReflectionRequest.challenges payload with
    | [] => message_lines
    | _ :: _ =>
        message_lines
        ++ [lit "Challenges noted: "
            ++ join (lit ", ") (EveningReflectionRequest.challenges payload)]
    end in
  let memory :=
    Memory.add_interaction (isoformat today) now_record (memory self)
      (lit "Evening reflection submitted")
      (join (lit " ") message_lines)
      [ (lit "date",
         Str (isoformat (EveningReflectionRequest.session_date payload)));
        (lit "type", Str (lit "evening_reflection")) ] in
  ({| EveningReflectionResponse.message := join [LF] message_lines;
      EveningReflectionResponse.session := session |},
   {| store := store; memory := memory |}).

(** [create_decision]. [fresh_session] is drawn if today's session has to
    be created, [fresh_decision] for the decision; [now_decision] and
    [now_record] are the readings of [datetime.utcnow]. *)
Definition create_decision (fresh_session fresh_decision : UUID)
    (now_decision now_record : datetime) (today : date)
    (self : PlannerService) (payload : DecisionRequest.t)
    : DecisionResponse.t * PlannerService :=
  let '(session, store) :=
    Storage.get_or_create_session fresh_session (store self) today in
  let decision :=
    {| Decision.id := fresh_decision;
       Decision.session_id := DailySession.id session;
       Decision.question := DecisionRequest.question payload;
       Decision.context := DecisionRequest.context payload;
       Decision.options_considered := DecisionRequest.options payload;
       Decision.chosen_option := DecisionRequest.chosen_option payload;
       Decision.reasoning := DecisionRequest.reasoning payload;
       Decision.outcome := None;
       Decision.timestamp := now_decision |} in
  let store := (Storage.add_decision fresh_session store today decision).2 in
  let related_context :=
    Memory.search_memories (memory self) (DecisionRequest.question payload) 5 in
  let memory :=
    Memory.add_interaction (isoformat today) now_record (memory self)
      (lit "Decision: " ++ DecisionRequest.question payload)
      (lit "Recorded decision with "
       ++ to_str (Int (Z.of_nat (length (DecisionRequest.options payload))))
       ++ lit " options.")
      [ (lit "type", Str (lit "decision"));
        (lit "date", Str (isoformat today)) ] in
  ({| DecisionResponse.decision := decision;
      DecisionResponse.related_context := related_context |},
   {| store := store; memory := memory |}).

End Dated.

(** [sync_notion_tasks] *)
Definition sync_notion_tasks (self : PlannerService) : list Task.t :=
  Storage.get_all_tasks (store self).

End Workflow.

(** ** Form helpers ([app/ui/routes.py]) *)

Module Ui.
Import Py.

(** The body of the inner loop of [_split_input]. *)
Definition keep_part (tokens : list str) (part : str) : list str :=
  let item := strip part in
  match item with
  | [] => tokens
  | _ :: _ => tokens ++ [item]
  end.

Definition _split_input (value : str) : list str :=
  match value with
  | [] => []
  | _ :: _ =>
      foldl (fun tokens line => foldl keep_part tokens (split_on "," line))
            [] (split_on LF (replace_char CR LF value))
  end.

(** An item as [_split_input] returns it: not empty, without white space
    at either end, without comma, line feed or carriage return. *)
Definition clean_item (item : str) : Prop :=
  item <> [] /\ stripped item
  /\ (","%char ∉ item) /\ (LF ∉ item) /\ (CR ∉ item).

Section Parsers.
(** [datetime.strptime(s, "%H:%M").time()] and [int(s)]; [None] stands for
    the [ValueError] they raise. *)
Variable strptime_time : str -> option time.
Variable int_ : str -> option Z.

(** The body of the loop of [_parse_energy_pattern]. *)
Definition parse_line (entries : list (time * Z)) (line : str)
    : list (time * Z) :=
  let cleaned := strip line in
  match cleaned with
  | [] => entries
  | _ :: _ =>
      let cleaned := replace_char "-" " " (replace_char "=" " " cleaned) in
      let parts := filter (fun part => part <> []) (split cleaned) in
      match parts with
      | time_part :: level_part :: _ =>
          match strptime_time time_part with
          | None => entries
          | Some parsed_time =>
              match int_ level_part with
              | None => entries
              | Some level =>
                  if (1 <=? level) && (level <=? 5)
                  then entries ++ [(parsed_time, level)]
                  else entries
              end
          end
      | _ => entries
      end
  end.

Definition _parse_energy_pattern (raw : str) : list (time * Z) :=
  match raw with
  | [] => []
  | _ :: _ => foldl parse_line [] (split_on LF (replace_char CR LF raw))
  end.

End Parsers.

(** The [sessions] entry of the context of [weekly_review]. *)
Definition review_sessions (today : date) (store : Storage.InMemoryStore)
    : list DailySession.t :=
  let window_start := today - 6 in
  filter (fun session =>
            window_start <= DailySession.date session
            /\ DailySession.date session <= today)
         (Storage.list_sessions store).

End Ui.

(** ** Sample states *)

Module Examples.
Import Py.

Definition record_focus : Memory.MemoryRecord :=
  {| Memory.user_input := lit "How do I keep my focus?";
     Memory.ai_response := lit "Protect your energy: one task at a time.";
     Memory.metadata := [(lit "type", Str (lit "chat"))];
     Memory.created_at := 100 |}.

Definition record_walk : Memory.MemoryRecord :=
  {| Memory.user_input := lit "Evening reflection submitted";
     Memory.ai_response := lit "Reflection stored.";
     Memory.metadata := [(lit "date", Str (lit "2024-05-01"))];
     Memory.created_at := 200 |}.

(** One bucket holding two records. *)
Definition memory_two : Memory.MemoryService :=
  {| Memory._sessions := [(lit "2024-05-01", [record_focus; record_walk])] |}.

(** A metadata mapping whose [session_id] is the empty text. *)
Definition metadata_empty_id : dict str object :=
  [(lit "session_id", Str []); (lit "date", Str (lit "2024-05-01"))].

(** A reflection that carries a sample of level nine. *)
Definition reflection_nine : EveningReflection.t :=
  {| EveningReflection.actual_focus := lit "writing";
     EveningReflection.wins := [lit "spec drafted"];
     EveningReflection.challenges := [];
     EveningReflection.tomorrow_intent := lit "review";
     EveningReflection.energy_pattern := [(1260, 9)] |}.

(** A reflection that carries a sample of level zero. *)
Definition reflection_zero : EveningReflection.t :=
  {| EveningReflection.actual_focus := lit "rest";
     EveningReflection.wins := [];
     EveningReflection.challenges := [];
     EveningReflection.tomorrow_intent := lit "start over";
     EveningReflection.energy_pattern := [(1260, 0)] |}.

Definition event (at_ : datetime) : PlannerEvent.t :=
  {| PlannerEvent.timestamp := at_;
     PlannerEvent.session_id := 7%N;
     PlannerEvent.description := lit "Evening reflection captured" |}.

(** A store whose log holds two events. *)
Definition store_two_events : Storage.InMemoryStore :=
  Storage.add_event (Storage.add_event Storage.init (event 10)) (event 20).

Definition decision (id : UUID) (at_ : datetime) : Decision.t :=
  {| Decision.id := id; Decision.session_id := 0%N;
     Decision.question := lit "Ship today?"; Decision.context := [];
     Decision.options_considered := [lit "yes"; lit "no"];
     Decision.chosen_option := None; Decision.reasoning := None;
     Decision.outcome := None; Decision.timestamp := at_ |}.

(** Two days, three decisions; the older day was entered last. *)
Definition store_decisions : Storage.InMemoryStore :=
  Storage.run Storage.init
    [ {| Storage.on_date := 739000; Storage.fresh_id := 1%N;
         Storage.what := Storage.Decide (decision 11%N 500) |};
      {| Storage.on_date := 738999; Storage.fresh_id := 2%N;
         Storage.what := Storage.Decide (decision 12%N 300) |};
      {| Storage.on_date := 739000; Storage.fresh_id := 3%N;
         Storage.what := Storage.Decide (decision 13%N 700) |} ].

(** A store whose only session, entered by a reflection, holds the single
    sample of level zero. *)
Definition store_zero : Storage.InMemoryStore :=
  (Storage.update_evening_reflection 1%N Storage.init 739000 reflection_zero).2.

(** The wins of a day, as the form helper returns them. *)
Definition wins : list str :=
  [lit "spec drafted"; lit "ran 5 km"; lit "inbox zero"].

(** The metadata of a morning check-in on 1 May 2024. *)
Definition metadata_checkin : dict str object :=
  [(lit "date", Str (lit "2024-05-01")); (lit "type", Str (lit "morning_checkin"))].

Definition morning (level : Z) : MorningContext.t :=
  {| MorningContext.energy_level := level;
     MorningContext.top_of_mind := [lit "release"];
     MorningContext.intended_focus := lit "write spec";
     MorningContext.blockers := [] |}.

(** A day with a check-in, a decision and a second check-in. *)
Definition calls_day : list Storage.call :=
  [ {| Storage.on_date := 739000; Storage.fresh_id := 4%N;
       Storage.what := Storage.Morning 540 (morning 2) |};
    {| Storage.on_date := 739000; Storage.fresh_id := 5%N;
       Storage.what := Storage.Decide (decision 14%N 900) |};
    {| Storage.on_date := 739001; Storage.fresh_id := 6%N;
       Storage.what := Storage.Morning 545 (morning 4) |} ].

(** A planner over the store of two days and the memory of two records. *)
Definition planner : Workflow.PlannerService :=
  Workflow.new 21%N 22%N 23%N 739007 store_decisions memory_two.

(** The reflection of 1 May 2024. *)
Definition reflection_request : EveningReflectionRequest.t :=
  {| EveningReflectionRequest.session_date := 739007;
     EveningReflectionRequest.actual_focus := lit "writing";
     EveningReflectionRequest.wins := wins;
     EveningReflectionRequest.challenges := [];
     EveningReflectionRequest.tomorrow_intent := lit "review";
     EveningReflectionRequest.energy_pattern := [(540, 4); (840, 2)] |}.

(** Sample parsers: a clock text [HH:MM] read as minutes, a level of one
    digit. *)
Definition digit_value (c : ascii) : option Z :=
  let n := N_of_ascii c in
  if ((48 <=? n) && (n <=? 57))%N then Some (Z.of_N n - 48) else None.

Definition parse_level (s : str) : option Z :=
  match s with
  | [c] => digit_value c
  | _ => None
  end.

Definition parse_clock (s : str) : option Z :=
  match s with
  | [h1; h0; colon; m1; m0] =>
      if decide (colon = ":"%char) then
        match digit_value h1, digit_value h0, digit_value m1, digit_value m0 with
        | Some a, Some b, Some c, Some d => Some ((10 * a + b) * 60 + 10 * c + d)
        | _, _, _, _ => None
        end
      else None
  | _ => None
  end.

(** Three lines typed into the energy field; the second has level 9. *)
Definition energy_field : str :=
  lit "09:00 4" ++ [CR; LF] ++ lit "14:00=9" ++ [LF] ++ lit " 21:00 - 2 ".

Definition form_request : EveningReflectionRequest.t :=
  {| EveningReflectionRequest.session_date := 739007;
     EveningReflectionRequest.actual_focus := lit "writing";
     EveningReflectionRequest.wins := [];
     EveningReflectionRequest.challenges := [];
     EveningReflectionRequest.tomorrow_intent := lit "review";
     EveningReflectionRequest.energy_pattern :=
       Ui._parse_energy_pattern parse_clock parse_level energy_field |}.

(** A week with two sessions that hold samples. *)
Definition store_week : Storage.InMemoryStore :=
  Storage.run Storage.init calls_day.

End Examples.

(** * Properties *)

Import Py.

(** ** Dictionaries *)

Section DictFacts.
Context {K V : Type} `{EqDecision K}.
Implicit Types (d : dict K V) (k : K) (v : V).

Lemma get_set_eq d k v : get (set d k v) k = Some v.
Proof.
  induction d as [|[k' v'] d IH]; simpl.
  - by rewrite decide_True.
  - destruct (decide (k' = k)) as [->|Hne]; simpl.
    + by rewrite decide_True.
    + by rewrite decide_False.
Qed.

Lemma get_set_ne d k k' v : k <> k' -> get (set d k v) k' = get d k'.
Proof.
  intros Hne. induction d as [|[k0 v0] d IH]; simpl.
  - by rewrite decide_False.
  - destruct (decide (k0 = k)) as [->|Hk]; simpl.
    + by rewrite !decide_False.
    + by rewrite IH.
Qed.

Lemma get_Some_elem_of d k v : get d k = Some v -> (k, v) ∈ d.
Proof.
  induction d as [|[k' v'] d IH]; simpl; [done|].
  destruct (decide (k' = k)) as [->|Hne].
  - intros [= ->]. left.
  - intros H. right. auto.
Qed.

Lemma get_None_keys d k : get d k = None <-> k ∉ keys d.
Proof.
  unfold keys. induction d as [|[k' v'] d IH]; simpl.
  - split; [intros _; apply not_elem_of_nil | done].
  - rewrite not_elem_of_cons. destruct (decide (k' = k)) as [->|Hne].
    + split; [done | intros [? _]; done].
    + rewrite IH. split; [intros ?; split; [congruence | done] | by intros [_ ?]].
Qed.

Lemma keys_set_present d k v :
  k ∈ keys d -> keys (set d k v) = keys d.
Proof.
  unfold keys. induction d as [|[k' v'] d IH]; simpl.
  - intros H. by apply elem_of_nil in H.
  - intros H. destruct (decide (k' = k)) as [->|Hne]; simpl; [done|].
    f_equal. apply IH. apply elem_of_cons in H as [?|?]; [congruence | done].
Qed.

Lemma set_absent d k v : k ∉ keys d -> set d k v = d ++ [(k, v)].
Proof.
  unfold keys. induction d as [|[k' v'] d IH]; simpl; [done|].
  rewrite not_elem_of_cons. intros [Hne Hnin].
  rewrite decide_False by congruence. by rewrite IH.
Qed.
End DictFacts.

(** ** Strings *)

Lemma startswith_spec (s t : str) :
  startswith s t = true <-> exists q, s = t ++ q.
Proof.
  revert s. induction t as [|a t IH]; intros s; simpl.
  - split; [intros _; by exists s | done].
  - destruct s as [|b s].
    + split; [done | intros [q Hq]; discriminate].
    + rewrite andb_true_iff, bool_decide_eq_true, IH. split.
      * intros [-> [q ->]]. by exists q.
      * intros [q [= -> ->]]. split; [done | by exists q].
Qed.

Lemma contains_spec (s t : str) : contains s t = true <-> substring t s.
Proof.
  unfold substring. induction s as [|b s IH]; simpl.
  - rewrite orb_false_r, startswith_spec. split.
    + intros [q Hq]. by exists [], q.
    + intros [p [q Hq]]. symmetry in Hq.
      apply app_eq_nil in Hq as [-> Hq]. apply app_eq_nil in Hq as [-> ->].
      by exists [].
  - rewrite orb_true_iff, IH, startswith_spec. split.
    + intros [[q Hq] | [p [q Hq]]].
      * by exists [], q.
      * exists (b :: p), q. by rewrite Hq.
    + intros [[|c p] [q Hq]].
      * left. by exists q.
      * right. injection Hq as -> ->. by exists p, q.
Qed.

Lemma substring_app_l (t a b : str) : substring t a -> substring t (a ++ b).
Proof. intros [p [q ->]]. exists p, (q ++ b). by rewrite <- !app_assoc. Qed.

Lemma substring_app_r (t a b : str) : substring t b -> substring t (a ++ b).
Proof. intros [p [q ->]]. exists (a ++ p), q. by rewrite <- !app_assoc. Qed.

Lemma lower_app (a b : str) : lower (a ++ b) = lower a ++ lower b.
Proof. apply fmap_app. Qed.

(** The words of [split] are not empty and hold no white space. *)
Lemma split_from_words (cur s : str) :
  Forall (fun c => isspace c = false) cur ->
  Forall is_word (split_from cur s).
Proof.
  revert cur. induction s as [|c s IH]; intros cur Hcur; simpl.
  - destruct cur; [constructor|]. constructor; [by split | constructor].
  - destruct (isspace c) eqn:Hsp.
    + destruct cur as [|x cur]; [by apply IH|].
      constructor; [by split | by apply IH].
    + apply IH. apply Forall_app. split; [done|]. by constructor.
Qed.

Lemma split_words (s : str) : Forall is_word (split s).
Proof. by apply split_from_words. Qed.

Lemma split_blank (s : str) :
  Forall (fun c => isspace c = true) s -> split s = [].
Proof.
  unfold split. induction 1 as [|c s Hc _ IH]; simpl; [done|]. by rewrite Hc.
Qed.

(** ** Lists *)

Lemma filter_all {A} (P : A -> Prop) `{forall x, Decision (P x)} (l : list A) :
  (forall x, P x) -> filter P l = l.
Proof.
  intros HP. induction l as [|x l IH]; [done|].
  rewrite filter_cons, decide_True by done. by rewrite IH.
Qed.

(** ** Slices *)

Lemma slice_to_nonneg {A} (l : list A) (stop : Z) :
  0 <= stop -> slice_to l stop = take (Z.to_nat stop) l.
Proof. intros H. unfold slice_to. by rewrite (proj2 (Z.ltb_ge _ _) H). Qed.

Lemma slice_from_tail {A} (l : list A) (n : Z) :
  1 <= n -> slice_from l (- n) = drop (length l - Z.to_nat n) l.
Proof.
  intros H. unfold slice_from.
  rewrite (proj2 (Z.ltb_lt (- n) 0)) by lia. f_equal. lia.
Qed.

Lemma slice_from_zero {A} (l : list A) : slice_from l (- 0) = l.
Proof. reflexivity. Qed.

(** ** Interaction memory *)

Section MemoryFacts.
Import Memory.

(** The tokens of a query are the lower-cased words of the query. *)
Lemma query_tokens_spec (query token : str) :
  token ∈ query_tokens query <-> exists w, w ∈ split query /\ token = lower w.
Proof.
  unfold query_tokens.
  rewrite elem_of_remove_dups, list_elem_of_fmap. split.
  - intros [w [-> Hw]]. apply list_elem_of_filter in Hw as [_ Hw]. eauto.
  - intros [w [Hw ->]]. exists w. split; [done|].
    apply list_elem_of_filter. split; [|done].
    pose proof (split_words query) as Hall. rewrite Forall_forall in Hall.
    by destruct (Hall _ Hw).
Qed.

Lemma query_tokens_blank (query : str) :
  Forall (fun c => isspace c = true) query -> query_tokens query = [].
Proof. intros H. unfold query_tokens. by rewrite split_blank. Qed.

Lemma haystack_eq (record : MemoryRecord) :
  haystack record
  = lower (user_input record) ++ " "%char :: lower (ai_response record).
Proof. unfold haystack. by rewrite !lower_app. Qed.

Lemma all_tokens_in_spec (tokens : list str) (record : MemoryRecord) :
  all_tokens_in tokens record = true
  <-> forall token, token ∈ tokens -> substring token (haystack record).
Proof.
  unfold all_tokens_in. rewrite forallb_forall. split.
  - intros H token Hin. apply contains_spec, H. by apply list_elem_of_In.
  - intros H token Hin. apply contains_spec, H. by apply list_elem_of_In.
Qed.

Lemma all_tokens_in_nil (record : MemoryRecord) : all_tokens_in [] record = true.
Proof. reflexivity. Qed.

(** How many further matches make the scan return. *)
Lemma scan_session_spec (tokens : list str) (limit : Z)
    (session : list MemoryRecord) (matches : list str) :
  let found := filter (fun r => all_tokens_in tokens r = true) session in
  let need := Z.to_nat (Z.max 1 (limit - Z.of_nat (length matches))) in
  scan_session tokens limit session matches
  = if decide (need <= length found)%nat
    then Return (matches ++ (ai_response <$> take need found))
    else Fallthrough (matches ++ (ai_response <$> found)).
Proof.
  revert matches. induction session as [|r session IH]; intros matches; simpl.
  - rewrite decide_False by (simpl; lia). by rewrite app_nil_r.
  - rewrite filter_cons.
    destruct (decide (all_tokens_in tokens r = true)) as [Hr | Hr].
    + rewrite Hr.
      destruct (Z.geb_spec (Z.of_nat (length (matches ++ [ai_response r]))) limit)
        as [Hge | Hlt]; rewrite length_app in *; simpl in *.
      * replace (Z.to_nat (Z.max 1 (limit - Z.of_nat (length matches))))
          with 1%nat by lia.
        rewrite decide_True by lia. done.
      * rewrite IH. rewrite length_app. simpl.
        replace (Z.to_nat (Z.max 1 (limit - Z.of_nat (length matches))))
          with (S (Z.to_nat (Z.max 1 (limit - Z.of_nat (length matches + 1)))))
          by lia.
        simpl. rewrite <- !app_assoc. simpl.
        repeat case_decide; try done; lia.
    + apply not_true_is_false in Hr. rewrite Hr. apply IH.
Qed.

Lemma scan_sessions_spec (tokens : list str) (limit : Z)
    (sessions : list (list MemoryRecord)) (matches : list str) :
  let found := filter (fun r => all_tokens_in tokens r = true) (concat sessions) in
  let need := Z.to_nat (Z.max 1 (limit - Z.of_nat (length matches))) in
  scan_sessions tokens limit sessions matches
  = matches ++ (ai_response <$> take need found).
Proof.
  revert matches. induction sessions as [|session sessions IH]; intros matches; simpl.
  - rewrite filter_nil, take_nil. simpl. by rewrite app_nil_r.
  - rewrite scan_session_spec, filter_app. case_decide as Hlen.
    + rewrite take_app_le by done. done.
    + rewrite IH, length_app, length_fmap, <- app_assoc, <- fmap_app. do 2 f_equal.
      rewrite take_app_ge by lia. do 2 f_equal. lia.
Qed.

(** The result of a search: the responses of the first matching records in
    scan order, as many as the limit and never fewer than one. *)
Lemma search_memories_spec (self : MemoryService) (query : str) (limit : Z) :
  search_memories self query limit
  = ai_response <$>
      take (Z.to_nat (Z.max 1 limit))
           (filter (fun r => all_tokens_in (query_tokens query) r = true)
                   (records self)).
Proof.
  unfold search_memories, records. rewrite scan_sessions_spec. simpl.
  by rewrite Z.sub_0_r.
Qed.

End MemoryFacts.

Section MemoryClaims.
Import Memory.

(** C1. Every text returned by [search_memories] is the response of a stored
    record whose haystack holds every lower-cased word of the query; the
    haystack is the text the code searches, the input, a space and the
    response, lower-cased as one text. A record whose haystack misses one
    of the words is not among the records returned. *)
Theorem search_memories_conjunctive
    (self : MemoryService) (query : str) (limit : Z) :
  exists found : list MemoryRecord,
    search_memories self query limit = ai_response <$> found
    /\ found `sublist_of` records self
    /\ (forall record w, record ∈ found -> w ∈ split query ->
          w <> [] /\ substring (lower w) (haystack record))
    /\ (forall record w, w ∈ split query ->
          ~ substring (lower w) (haystack record) ->
          record ∉ found).
Proof.
  set (P := fun r => all_tokens_in (query_tokens query) r = true).
  set (found := take (Z.to_nat (Z.max 1 limit)) (filter P (records self))).
  assert (Hfound : forall record w, record ∈ found -> w ∈ split query ->
            w <> [] /\ substring (lower w) (haystack record)).
  { intros record w Hin Hw.
    pose proof (split_words query) as Hall. rewrite Forall_forall in Hall.
    specialize (Hall _ Hw).
    apply subseteq_take, list_elem_of_filter in Hin as [Hin _].
    split; [by destruct Hall|].
    apply all_tokens_in_spec with (token := lower w) in Hin; [done|].
    apply query_tokens_spec. eauto. }
  exists found. split; [apply search_memories_spec|].
  split; [|split; [done|]].
  - etrans; [apply sublist_take | apply sublist_filter].
  - intros record w Hw Hnot Hin. apply Hnot. by apply (Hfound record w).
Qed.

(** The early stop of [search_memories] for a limit of at least one: the
    result is the responses of the first [limit] matching records in scan
    order, so it has at most [limit] entries and no later match. *)
Lemma search_memories_early_stop (self : MemoryService) (query : str) (limit : Z) :
  1 <= limit ->
  search_memories self query limit
  = ai_response <$>
      take (Z.to_nat limit)
           (filter (fun r => all_tokens_in (query_tokens query) r = true)
                   (records self))
  /\ Z.of_nat (length (search_memories self query limit)) <= limit.
Proof.
  intros H. rewrite search_memories_spec, Z.max_r by done.
  split; [done|]. rewrite length_fmap, length_take. lia.
Qed.

(** C2. With a limit of zero the scan still returns its first match: the
    limit is compared only after a match has been appended. *)
Theorem search_memories_limit_zero :
  search_memories Examples.memory_two (lit "focus energy") 0
  = [ai_response Examples.record_focus]
  /\ ~ (Z.of_nat (length (search_memories Examples.memory_two
                            (lit "focus energy") 0)) <= 0).
Proof. split; [reflexivity | vm_compute; congruence]. Qed.

(** A query of white space only, with a limit of at least one, returns the
    responses of the first [limit] records in scan order. *)
Lemma search_memories_blank (self : MemoryService) (query : str) (limit : Z) :
  Forall (fun c => isspace c = true) query ->
  1 <= limit ->
  query_tokens query = []
  /\ search_memories self query limit
     = ai_response <$> take (Z.to_nat limit) (records self).
Proof.
  intros Hq Hl. pose proof (query_tokens_blank query Hq) as Ht.
  split; [done|]. rewrite search_memories_spec, Ht, Z.max_r by done.
  do 2 f_equal. by apply filter_all.
Qed.

(** C10. A blank query with a limit of zero returns the response of the
    first record, not of the first zero records. *)
Theorem search_memories_blank_limit_zero :
  query_tokens (lit "   ") = []
  /\ search_memories Examples.memory_two (lit "   ") 0
     = [ai_response Examples.record_focus]
  /\ search_memories Examples.memory_two (lit "   ") 0
     <> ai_response <$> take (Z.to_nat 0) (records Examples.memory_two).
Proof. repeat split; vm_compute; congruence. Qed.

(** The claim C5 as worded fails: a [session_id] that is present but empty
    is passed over in favour of the [date] field. *)
Lemma bucket_key_empty_session_id :
  ~ (forall today metadata v,
       get metadata (lit "session_id") = Some v ->
       bucket_key today metadata = to_str v).
Proof.
  intros H.
  specialize (H (lit "2024-06-30") Examples.metadata_empty_id (Str []) eq_refl).
  vm_compute in H. discriminate.
Qed.

(** C5 (amended). The bucket key is the text of the [session_id] field when
    that field is present and true, else of the [date] field when present
    and true, else today's date. The new record, stamped with the current
    time, ends the list of that bucket; an absent bucket is created after
    the existing ones; the other buckets are unchanged. *)
Theorem add_interaction_bucket (today : str) (now : datetime)
    (self : MemoryService) (input response : str) (metadata : dict str object) :
  let key :=
    match present metadata (lit "session_id") with
    | Some v => to_str v
    | None =>
        match present metadata (lit "date") with
        | Some v => to_str v
        | None => today
        end
    end in
  let record :=
    {| user_input := input; ai_response := response;
       metadata := metadata; created_at := now |} in
  let self' := add_interaction today now self input response metadata in
  bucket_key today metadata = key
  /\ get (_sessions self') key
     = Some (default [] (get (_sessions self) key) ++ [record])
  /\ (forall k, k <> key -> get (_sessions self') k = get (_sessions self) k)
  /\ keys (_sessions self')
     = if decide (key ∈ keys (_sessions self))
       then keys (_sessions self)
       else keys (_sessions self) ++ [key].
Proof.
  intros key record self'.
  assert (Hkey : bucket_key today metadata = key).
  { unfold bucket_key, key, present, or_.
    destruct (get metadata (lit "session_id")) as [a|];
      destruct (get metadata (lit "date")) as [b|]; simpl;
      try (destruct (truthy a) eqn:Ha; simpl; rewrite ?Ha; simpl);
      try (destruct (truthy b) eqn:Hb; simpl; rewrite ?Hb; simpl);
      done. }
  split; [done|].
  unfold self', add_interaction. simpl. rewrite Hkey.
  fold record. unfold setdefault_append.
  destruct (get (_sessions self) key) as [bucket|] eqn:Hget; simpl.
  - split; [apply get_set_eq|]. split; [intros k Hk; by apply get_set_ne|].
    assert (key ∈ keys (_sessions self)) as Hin.
    { destruct (decide (key ∈ keys (_sessions self))) as [|Hn]; [done|].
      apply get_None_keys in Hn. congruence. }
    rewrite decide_True by done. by apply keys_set_present.
  - split; [apply get_set_eq|]. split; [intros k Hk; by apply get_set_ne|].
    apply get_None_keys in Hget. rewrite decide_False by done.
    rewrite set_absent by done. unfold keys. by rewrite fmap_app.
Qed.

End MemoryClaims.

(** ** Sorting *)

Section SortedFacts.
Context {A : Type} (key : A -> Z).

Lemma insert_reverse_perm (x : A) (l : list A) :
  insert_reverse key x l ≡ₚ x :: l.
Proof.
  induction l as [|y l IH]; simpl; [done|].
  destruct (key y <=? key x); [done|].
  rewrite IH. apply Permutation_swap.
Qed.

Lemma sorted_reverse_perm (l : list A) : sorted_reverse key l ≡ₚ l.
Proof.
  unfold sorted_reverse. induction l as [|x l IH]; simpl; [done|].
  by rewrite insert_reverse_perm, IH.
Qed.

Lemma insert_reverse_sorted (x : A) (l : list A) :
  StronglySorted (fun a b => key b <= key a) l ->
  StronglySorted (fun a b => key b <= key a) (insert_reverse key x l).
Proof.
  induction 1 as [|y l Hl IH Hy]; simpl.
  - repeat constructor.
  - destruct (Z.leb_spec (key y) (key x)) as [Hle | Hlt].
    + constructor; [by constructor|]. constructor; [done|].
      eapply Forall_impl; [exact Hy|]. simpl. intros z Hz. lia.
    + constructor; [done|].
      rewrite insert_reverse_perm. constructor; [lia | done].
Qed.

Lemma sorted_reverse_sorted (l : list A) :
  StronglySorted (fun a b => key b <= key a) (sorted_reverse key l).
Proof.
  unfold sorted_reverse. induction l as [|x l IH]; simpl.
  - constructor.
  - by apply insert_reverse_sorted.
Qed.

(** The sort is stable: items of one key come out in the order they came in. *)
Lemma insert_reverse_stable (k : Z) (x : A) (l : list A) :
  StronglySorted (fun a b => key b <= key a) l ->
  filter (fun a => key a = k) (insert_reverse key x l)
  = filter (fun a => key a = k) (x :: l).
Proof.
  induction 1 as [|y l Hl IH Hy]; simpl; [done|].
  destruct (Z.leb_spec (key y) (key x)) as [Hle | Hlt]; [done|].
  rewrite (filter_cons _ y), IH, !filter_cons.
  destruct (decide (key y = k)) as [Hyk|]; [|done].
  repeat case_decide; first [lia | done].
Qed.

Lemma sorted_reverse_stable (k : Z) (l : list A) :
  filter (fun a => key a = k) (sorted_reverse key l)
  = filter (fun a => key a = k) l.
Proof.
  induction l as [|x l IH]; [done|].
  change (sorted_reverse key (x :: l))
    with (insert_reverse key x (sorted_reverse key l)).
  rewrite insert_reverse_stable by apply sorted_reverse_sorted.
  by rewrite !filter_cons, IH.
Qed.

End SortedFacts.

Lemma foldl_extend {A B} (f : A -> list B) (l : list A) (acc : list B) :
  foldl (fun acc x => acc ++ f x) acc l = acc ++ (l ≫= f).
Proof.
  revert acc. induction l as [|x l IH]; intros acc; simpl.
  - by rewrite app_nil_r.
  - by rewrite IH, <- app_assoc.
Qed.

(** ** Session store *)

Section StorageFacts.
Import Storage.

Lemma get_or_create_session_lookup (fresh : UUID) (self : InMemoryStore) (d : date) :
  get_session (get_or_create_session fresh self d).2 d
  = Some (get_or_create_session fresh self d).1.
Proof.
  unfold get_or_create_session, get_session.
  destruct (get (_sessions self) d) eqn:Hget; simpl; [done|].
  apply get_set_eq.
Qed.

Lemma get_or_create_session_other (fresh : UUID) (self : InMemoryStore) (d d' : date) :
  d <> d' ->
  get_session (get_or_create_session fresh self d).2 d' = get_session self d'.
Proof.
  intros Hne. unfold get_or_create_session, get_session.
  destruct (get (_sessions self) d) eqn:Hget; simpl; [done|].
  by apply get_set_ne.
Qed.

Lemma get_or_create_session_timeline (fresh : UUID) (self : InMemoryStore) (d : date) :
  DailySession.energy_pattern (get_or_create_session fresh self d).1
  = timeline self d.
Proof.
  unfold get_or_create_session, timeline, get_session.
  by destruct (get (_sessions self) d).
Qed.

(** One call extends the timeline of its date by its samples and leaves
    the timelines of the other dates alone. *)
Lemma timeline_apply_call (self : InMemoryStore) (c : call) (d : date) :
  timeline (apply_call self c) d = timeline self d ++ samples_for d c.
Proof.
  unfold apply_call, samples_for.
  destruct (decide (on_date c = d)) as [<- | Hne].
  - rewrite <- (get_or_create_session_timeline (fresh_id c) self (on_date c)).
    destruct (what c) as [now context | reflection | decision];
      unfold update_morning_context, update_evening_reflection, add_decision;
      destruct (get_or_create_session (fresh_id c) self (on_date c))
        as [session self1];
      simpl; unfold timeline, get_session, store_session; simpl;
      rewrite get_set_eq; simpl.
    + done.
    + destruct (EveningReflection.energy_pattern reflection);
        [by rewrite app_nil_r | done].
    + by rewrite app_nil_r.
  - rewrite app_nil_r.
    pose proof (get_or_create_session_other (fresh_id c) self _ _ Hne) as Ho.
    destruct (what c) as [now context | reflection | decision];
      unfold update_morning_context, update_evening_reflection, add_decision;
      destruct (get_or_create_session (fresh_id c) self (on_date c))
        as [session self1];
      simpl in *; unfold timeline, get_session, store_session in *; simpl;
      rewrite get_set_ne by done; by rewrite Ho.
Qed.

Lemma timeline_run (self : InMemoryStore) (calls : list call) (d : date) :
  timeline (run self calls) d = timeline self d ++ (calls ≫= samples_for d).
Proof.
  unfold run. revert self. induction calls as [|c calls IH]; intros self; simpl.
  - by rewrite app_nil_r.
  - by rewrite IH, timeline_apply_call, <- app_assoc.
Qed.

Lemma list_sessions_perm (self : InMemoryStore) :
  list_sessions self ≡ₚ values (_sessions self).
Proof. apply sorted_reverse_perm. Qed.

End StorageFacts.

Section StorageClaims.
Import Storage.

(** Levels out of range can only come with a reflection: calls whose
    samples are in range keep every timeline in range. *)
Lemma timeline_in_range (self : InMemoryStore) (calls : list call) (d : date) :
  Forall in_range (timeline self d) ->
  Forall call_in_range calls ->
  Forall in_range (timeline (run self calls) d).
Proof.
  intros Hself Hcalls. rewrite timeline_run. apply Forall_app. split; [done|].
  induction Hcalls as [|c calls Hc _ IH]; [constructor|].
  rewrite bind_cons. apply Forall_app. split; [|done].
  unfold samples_for, call_in_range in *. case_decide; [|constructor].
  destruct (what c); [constructor; [exact Hc | constructor] | done | constructor].
Qed.

(** C3. A reflection that carries a sample of level nine puts it on the
    timeline of its day: the store appends the samples of a reflection
    without looking at them. *)
Theorem update_evening_reflection_out_of_range :
  timeline (update_evening_reflection 1%N init 739000 Examples.reflection_nine).2
           739000
  = [(1260, 9)]
  /\ ~ Forall in_range
         (timeline
            (update_evening_reflection 1%N init 739000 Examples.reflection_nine).2
            739000).
Proof.
  assert (Heq : timeline
            (update_evening_reflection 1%N init 739000 Examples.reflection_nine).2
            739000 = [(1260, 9)]) by reflexivity.
  split; [done|]. rewrite Heq. intros H.
  apply Forall_cons in H as [[_ H] _]. simpl in H. lia.
Qed.

(** C4. After any history of morning, evening and decision calls, on any
    dates, the timeline of a date is what it was before followed by the
    samples handed over for that date, in the order of the calls; from the
    empty store it is exactly those samples, and its length is their
    number. *)
Theorem timeline_accumulates (self : InMemoryStore) (calls : list call) (d : date) :
  timeline (run self calls) d = timeline self d ++ (calls ≫= samples_for d)
  /\ timeline (run init calls) d = calls ≫= samples_for d
  /\ length (timeline (run init calls) d)
     = sum_list (length <$> (samples_for d <$> calls)).
Proof.
  split; [apply timeline_run|]. rewrite timeline_run. simpl.
  split; [done|].
  induction calls as [|c calls IH]; [done|].
  rewrite bind_cons, length_app, IH. done.
Qed.

(** C6. For a limit that is not negative, [recent_decisions] returns the
    first [limit] entries of an ordering of the decisions of all sessions
    by timestamp, newest first. *)
Theorem recent_decisions_sorted_truncated (self : InMemoryStore) (limit : Z) :
  0 <= limit ->
  exists ordered : list Decision.t,
    ordered ≡ₚ all_decisions self
    /\ StronglySorted newer_first ordered
    /\ recent_decisions self limit = take (Z.to_nat limit) ordered
    /\ Z.of_nat (length (recent_decisions self limit)) <= limit.
Proof.
  intros Hlimit. unfold recent_decisions. rewrite foldl_extend. simpl.
  set (ordered := sorted_reverse Decision.timestamp
                    (list_sessions self ≫= DailySession.decisions)).
  exists ordered. split; [|split; [|split]].
  - unfold ordered, all_decisions.
    by rewrite sorted_reverse_perm, list_sessions_perm.
  - apply sorted_reverse_sorted.
  - by apply slice_to_nonneg.
  - rewrite slice_to_nonneg, length_take by done. lia.
Qed.

Lemma recent_decisions_sorted_truncated_witness :
  0 <= 2
  /\ exists ordered : list Decision.t,
       ordered ≡ₚ all_decisions Examples.store_decisions
       /\ StronglySorted newer_first ordered
       /\ recent_decisions Examples.store_decisions 2
          = take (Z.to_nat 2) ordered
       /\ Z.of_nat (length (recent_decisions Examples.store_decisions 2)) <= 2.
Proof.
  split; [lia|].
  apply (recent_decisions_sorted_truncated Examples.store_decisions 2). lia.
Defined.

Example recent_decisions_two_days :
  recent_decisions Examples.store_decisions 2
  = [Examples.decision 13%N 700; Examples.decision 11%N 500].
Proof. reflexivity. Qed.

(** For a limit of at least one, [recent_events] returns the last [limit]
    events, oldest first, and all of them when there are fewer. *)
Lemma recent_events_tail (self : InMemoryStore) (limit : Z) :
  1 <= limit ->
  recent_events self limit
  = drop (length (_events self) - Z.to_nat limit) (_events self)
  /\ length (recent_events self limit)
     = Nat.min (Z.to_nat limit) (length (_events self)).
Proof.
  intros H. unfold recent_events. rewrite slice_from_tail by done.
  split; [done|]. rewrite length_drop. lia.
Qed.

(** C7. With a limit of zero [recent_events] returns the whole log, not
    the last zero events: the slice [-0:] starts at the first event. *)
Theorem recent_events_limit_zero :
  recent_events Examples.store_two_events 0
  = [Examples.event 10; Examples.event 20]
  /\ recent_events Examples.store_two_events 0
     <> drop (length (_events Examples.store_two_events) - Z.to_nat 0)
             (_events Examples.store_two_events).
Proof. split; [reflexivity | vm_compute; congruence]. Qed.

(** C9. Two calls of [get_or_create_session] in a row for one date return
    the same session, hence the same identifier, and the second call
    leaves the store as the first left it. The first call returns the
    session already kept for the date and changes nothing, or keeps and
    returns an empty session when the date has none. *)
Theorem get_or_create_session_twice
    (self : InMemoryStore) (d : date) (fresh1 fresh2 : UUID) :
  let first := get_or_create_session fresh1 self d in
  let second := get_or_create_session fresh2 first.2 d in
  DailySession.id second.1 = DailySession.id first.1
  /\ second = first
  /\ match get_session self d with
     | Some existing => first = (existing, self)
     | None =>
         first.1 = DailySession.new fresh1 d
         /\ get_session first.2 d = Some first.1
     end.
Proof.
  intros first second.
  assert (Heq : second = first).
  { unfold second. pose proof (get_or_create_session_lookup fresh1 self d) as H.
    fold first in H. unfold get_session in H.
    unfold get_or_create_session at 1. rewrite H. by destruct first. }
  split; [by rewrite Heq|]. split; [done|].
  unfold first, get_session, get_or_create_session.
  destruct (get (_sessions self) d) eqn:Hget; simpl; [done|].
  split; [done|]. apply get_set_eq.
Qed.

End StorageClaims.

(** ** Weekly report *)

Section PlannerFacts.
Import Planner.

(** The sessions of the report are those kept under a date of the window,
    in the order of the store. *)
Lemma get_sessions_between_spec
    (store : Storage.InMemoryStore) (start end_ : date) (session : DailySession.t) :
  session ∈ Storage.get_sessions_between store start end_
  <-> exists d, (d, session) ∈ Storage._sessions store /\ start <= d <= end_.
Proof.
  unfold Storage.get_sessions_between. rewrite list_elem_of_fmap. split.
  - intros [[d s] [-> Hin]]. apply list_elem_of_filter in Hin as [Hd Hin].
    exists d. simpl in *. split; [done | lia].
  - intros [d [Hin Hd]]. exists (d, session). split; [done|].
    apply list_elem_of_filter. simpl. split; [lia | done].
Qed.

Lemma foldl_max_spec (l : list Z) (x : Z) :
  (foldl Z.max x l = x \/ foldl Z.max x l ∈ l)
  /\ x <= foldl Z.max x l
  /\ Forall (fun y => y <= foldl Z.max x l) l.
Proof.
  revert x. induction l as [|y l IH]; intros x; simpl.
  - split; [by left|]. split; [lia | constructor].
  - destruct (IH (Z.max x y)) as (Hin & Hle & Hall).
    split; [|split; [lia | constructor; [lia | done]]].
    destruct Hin as [Heq | Hin].
    + rewrite Heq. destruct (Z.max_spec x y) as [[_ ->] | [_ ->]].
      * right. left.
      * by left.
    + right. by right.
Qed.

(** [max] returns an item that bounds the others. *)
Lemma max_spec (l : list Z) (m : Z) :
  max l = Some m -> m ∈ l /\ Forall (fun y => y <= m) l.
Proof.
  destruct l as [|x l]; simpl; [done|]. intros [= <-].
  destruct (foldl_max_spec l x) as (Hin & Hle & Hall). split.
  - destruct Hin as [-> | Hin]; [left | by right].
  - by constructor.
Qed.

(** A session is a high-energy day exactly when one of its samples has a
    level of four or more. *)
Lemma is_high_energy_spec (session : DailySession.t) :
  is_high_energy session = true
  <-> exists level, level ∈ levels session /\ 4 <= level.
Proof.
  unfold is_high_energy. destruct (max (levels session)) as [m|] eqn:Hmax.
  - apply max_spec in Hmax as [Hin Hall]. rewrite Z.geb_le. split.
    + intros Hm. by exists m.
    + intros [level [Hl H4]]. rewrite Forall_forall in Hall.
      specialize (Hall _ Hl). lia.
  - split; [done|]. intros [level [Hl _]].
    destruct (levels session); [by apply elem_of_nil in Hl | done].
Qed.

Lemma sum_from (l : list Z) (a : Z) : foldl Z.add a l = a + sum l.
Proof.
  unfold sum. revert a. induction l as [|x l IH]; intros a; cbn [foldl]; [lia|].
  rewrite (IH (a + x)), (IH (0 + x)). lia.
Qed.

Lemma sum_cons (x : Z) (l : list Z) : sum (x :: l) = x + sum l.
Proof. unfold sum at 1. simpl. by rewrite sum_from. Qed.

(** The count of reflections is the number of sessions that have one. *)
Lemma reflection_count_spec (sessions : list DailySession.t) :
  reflection_count sessions
  = Z.of_nat (length (filter (fun session =>
                      is_Some (DailySession.evening_reflection session))
                    sessions)).
Proof.
  unfold reflection_count.
  induction (filter _ sessions) as [|s l IH]; [done|].
  rewrite fmap_cons, sum_cons, IH. simpl length. lia.
Qed.

Lemma sum_positive (l : list Z) :
  l <> [] -> Forall (fun x => 1 <= x) l -> 0 < sum l.
Proof.
  intros Hne Hall. induction Hall as [|x l Hx Hall IH]; [done|].
  rewrite sum_cons. destruct l as [|y l].
  - unfold sum. simpl. lia.
  - assert (0 < sum (y :: l)) by (apply IH; done). lia.
Qed.

(** The mean is absent exactly when the sessions hold no sample, and is
    otherwise the sum of all samples over their number. *)
Lemma _average_energy_spec (sessions : list DailySession.t) :
  let points := sessions ≫= levels in
  _average_energy sessions
  = match points with
    | [] => None
    | _ :: _ =>
        Some (inject_Z (sum points) / inject_Z (Z.of_nat (length points)))%Q
    end.
Proof. unfold _average_energy. by rewrite foldl_extend. Qed.

Lemma _average_energy_None (sessions : list DailySession.t) :
  _average_energy sessions = None <-> sessions ≫= levels = [].
Proof.
  rewrite _average_energy_spec. simpl. by destruct (sessions ≫= levels).
Qed.

Lemma mean_zero (s : Z) (n : nat) :
  n <> 0%nat ->
  Qeq_bool (inject_Z s / inject_Z (Z.of_nat n)) 0 = true <-> s = 0.
Proof.
  intros Hn. rewrite Qeq_bool_iff.
  destruct n as [|n]; [done|].
  unfold Qeq, Qdiv, Qmult, Qinv, inject_Z. simpl. lia.
Qed.

(** With levels of at least one, the report shows the mean exactly when the
    window holds a sample. *)
Lemma weekly_patterns_average (today : date) (store : Storage.InMemoryStore) :
  let sessions := Storage.get_sessions_between store (today - 6) today in
  Forall (fun level => 1 <= level) (sessions ≫= levels) ->
  energy_trends (weekly_patterns today store)
  = match _average_energy sessions with
    | Some q => [AverageRecordedEnergy q]
    | None => []
    end.
Proof.
  intros sessions Hall. unfold weekly_patterns. simpl. fold sessions.
  rewrite _average_energy_spec. simpl.
  destruct (sessions ≫= levels) as [|x l] eqn:Hp; [done|].
  unfold truthy_average.
  destruct (Qeq_bool (inject_Z (sum (x :: l))
                      / inject_Z (Z.of_nat (length (x :: l)))) 0) eqn:Hq;
    [|done].
  apply mean_zero in Hq; [|done].
  assert (0 < sum (x :: l)) by (by apply sum_positive). lia.
Qed.

(** The lines of the report: the high-energy days, the count of
    reflections and the summary are computed from the window sessions. *)
Lemma weekly_patterns_highlights (today : date) (store : Storage.InMemoryStore) :
  let sessions := Storage.get_sessions_between store (today - 6) today in
  let days :=
    DailySession.date <$> filter (fun s => is_high_energy s) sessions in
  highlights (weekly_patterns today store)
  = match days with [] => [] | _ :: _ => [HighEnergyOn days] end
    ++ [CapturedReflections
          (Z.of_nat (length (filter (fun s =>
                       is_Some (DailySession.evening_reflection s)) sessions)))].
Proof.
  intros sessions days. unfold weekly_patterns. simpl. fold sessions.
  by rewrite reflection_count_spec.
Qed.

(** C8. A week whose only sample has level zero has a sample and a mean,
    yet the report leaves the mean out: the test [if average_energy]
    also fails on a mean of zero. *)
Theorem weekly_patterns_mean_zero :
  let sessions :=
    Storage.get_sessions_between Examples.store_zero (739000 - 6) 739000 in
  sessions ≫= levels = [0]
  /\ _average_energy sessions = Some (inject_Z 0 / inject_Z 1)%Q
  /\ energy_trends (weekly_patterns 739000 Examples.store_zero) = [].
Proof. repeat split. Qed.

End PlannerFacts.

(** * Further properties *)

(** ** Stripping, splitting and joining *)

Lemma lstrip_split (s : str) :
  exists ws, s = ws ++ lstrip s /\ Forall (fun c => isspace c = true) ws.
Proof.
  induction s as [|c s [ws [Heq Hws]]]; simpl.
  - by exists [].
  - destruct (isspace c) eqn:Hc.
    + exists (c :: ws). split; [simpl; by f_equal | by constructor].
    + by exists [].
Qed.

Lemma lstrip_head (s : str) (c : ascii) :
  head (lstrip s) = Some c -> isspace c = false.
Proof.
  induction s as [|x s IH]; simpl; [done|].
  destruct (isspace x) eqn:Hx; [done|]. simpl. by intros [= <-].
Qed.

Lemma lstrip_id (s : str) :
  (forall c, head s = Some c -> isspace c = false) -> lstrip s = s.
Proof.
  destruct s as [|x s]; simpl; [done|]. intros H. by rewrite (H x).
Qed.

Lemma lstrip_spaces (ws s : str) :
  Forall (fun c => isspace c = true) ws -> lstrip (ws ++ s) = lstrip s.
Proof. induction 1 as [|c ws Hc _ IH]; simpl; [done|]. by rewrite Hc. Qed.

Lemma rstrip_split (s : str) :
  exists ws, s = rstrip s ++ ws /\ Forall (fun c => isspace c = true) ws.
Proof.
  unfold rstrip. destruct (lstrip_split (reverse s)) as [ws [Heq Hws]].
  exists (reverse ws). split.
  - rewrite <- reverse_app, <- Heq. by rewrite reverse_involutive.
  - by apply Forall_reverse.
Qed.

Lemma rstrip_last (s : str) (c : ascii) :
  last (rstrip s) = Some c -> isspace c = false.
Proof. unfold rstrip. rewrite last_reverse. apply lstrip_head. Qed.

Lemma rstrip_id (s : str) :
  (forall c, last s = Some c -> isspace c = false) -> rstrip s = s.
Proof.
  intros H. unfold rstrip. rewrite lstrip_id; [apply reverse_involutive|].
  intros c Hc. apply H. by rewrite <- head_reverse.
Qed.

Lemma rstrip_head (s : str) (c : ascii) :
  head (rstrip s) = Some c -> head s = Some c.
Proof.
  destruct (rstrip_split s) as [ws [Heq _]]. intros H.
  rewrite Heq. destruct (rstrip s); [done|]. done.
Qed.

(** [strip] leaves no white space at either end. *)
Lemma strip_stripped (s : str) : stripped (strip s).
Proof.
  unfold strip. split.
  - intros c Hc. apply rstrip_head in Hc. by apply lstrip_head in Hc.
  - apply rstrip_last.
Qed.

Lemma strip_id (s : str) : stripped s -> strip s = s.
Proof. intros [Hh Hl]. unfold strip. rewrite lstrip_id by done. by apply rstrip_id. Qed.

Lemma strip_idemp (s : str) : strip (strip s) = strip s.
Proof. apply strip_id, strip_stripped. Qed.

Lemma strip_spaces (ws s : str) :
  Forall (fun c => isspace c = true) ws -> strip (ws ++ s) = strip s.
Proof. intros H. unfold strip. by rewrite lstrip_spaces. Qed.

Lemma lstrip_subseteq (s : str) : lstrip s ⊆ s.
Proof.
  destruct (lstrip_split s) as [ws [Heq _]]. intros c Hc.
  rewrite Heq. apply elem_of_app. by right.
Qed.

Lemma strip_subseteq (s : str) : strip s ⊆ s.
Proof.
  unfold strip. destruct (rstrip_split (lstrip s)) as [ws [Heq _]].
  intros c Hc. apply lstrip_subseteq. rewrite Heq. apply elem_of_app. by left.
Qed.

Lemma replace_char_absent (old new : ascii) (s : str) :
  old ∉ s -> replace_char old new s = s.
Proof.
  intros H. unfold replace_char. induction s as [|c s IH]; [done|].
  apply not_elem_of_cons in H as [Hne Hs].
  rewrite fmap_cons, decide_False by done. by rewrite IH.
Qed.

Lemma replace_char_gone (old new : ascii) (s : str) :
  old <> new -> old ∉ replace_char old new s.
Proof.
  intros Hne Hin. unfold replace_char in Hin.
  apply list_elem_of_fmap in Hin as [c [Hc _]].
  destruct (decide (c = old)); congruence.
Qed.

(** The fields of [split_on] hold characters of the text and never the
    separator. *)
Lemma split_on_from_fields (sep : ascii) (cur s field : str) :
  field ∈ split_on_from sep cur s ->
  (forall c, c ∈ field -> c ∈ cur \/ c ∈ s)
  /\ (sep ∉ cur -> sep ∉ field).
Proof.
  revert cur. induction s as [|x s IH]; intros cur; simpl.
  - intros Hf. apply list_elem_of_singleton in Hf as ->.
    split; [intros c Hc; by left | done].
  - destruct (decide (x = sep)) as [-> | Hne].
    + intros Hf. apply elem_of_cons in Hf as [-> | Hf].
      * split; [intros c Hc; by left | done].
      * destruct (IH [] Hf) as [H1 H2]. split.
        -- intros c Hc. destruct (H1 c Hc) as [H | H].
           ++ by apply elem_of_nil in H.
           ++ right. by right.
        -- intros _. apply H2, not_elem_of_nil.
    + intros Hf. destruct (IH _ Hf) as [H1 H2]. split.
      * intros c Hc. destruct (H1 c Hc) as [H | H].
        -- apply elem_of_app in H as [H | H]; [by left|].
           apply list_elem_of_singleton in H as ->. right. left.
        -- right. by right.
      * intros Hcur. apply H2. rewrite elem_of_app, list_elem_of_singleton.
        intros [H | H]; [done | congruence].
Qed.

Lemma split_on_fields (sep : ascii) (s field : str) :
  field ∈ split_on sep s -> field ⊆ s /\ sep ∉ field.
Proof.
  intros Hf. destruct (split_on_from_fields sep [] s field Hf) as [H1 H2].
  split.
  - intros c Hc. destruct (H1 c Hc) as [H | H]; [by apply elem_of_nil in H | done].
  - apply H2, not_elem_of_nil.
Qed.

Lemma split_on_from_absent (sep : ascii) (cur s : str) :
  sep ∉ s -> split_on_from sep cur s = [cur ++ s].
Proof.
  revert cur. induction s as [|x s IH]; intros cur Hs; simpl.
  - by rewrite app_nil_r.
  - apply not_elem_of_cons in Hs as [Hne Hs].
    rewrite decide_False by done. rewrite IH by done.
    by rewrite <- app_assoc.
Qed.

Lemma split_on_from_app (sep : ascii) (cur x s : str) :
  sep ∉ x ->
  split_on_from sep cur (x ++ sep :: s) = (cur ++ x) :: split_on_from sep [] s.
Proof.
  revert cur. induction x as [|c x IH]; intros cur Hx; simpl.
  - rewrite decide_True by done. by rewrite app_nil_r.
  - apply not_elem_of_cons in Hx as [Hne Hx].
    rewrite decide_False by done. rewrite IH by done.
    by rewrite <- app_assoc.
Qed.

Lemma join_cons (sep x : str) (l : list str) :
  l <> [] -> join sep (x :: l) = x ++ sep ++ join sep l.
Proof. by destruct l. Qed.

Lemma join_subseteq (sep : str) (l : list str) (c : ascii) :
  c ∈ join sep l -> c ∈ sep \/ exists x, x ∈ l /\ c ∈ x.
Proof.
  induction l as [|x l IH]; simpl.
  - intros H. by apply elem_of_nil in H.
  - destruct l as [|y l].
    + intros H. right. exists x. split; [left | done].
    + rewrite !elem_of_app. intros [H | [H | H]].
      * right. exists x. split; [left | done].
      * by left.
      * destruct (IH H) as [? | [z [Hz Hc]]]; [by left|].
        right. exists z. split; [by right | done].
Qed.

(** ** Calendar dates *)

Example isoformat_known :
  isoformat 1 = lit "0001-01-01"
  /\ isoformat 719163 = lit "1970-01-01"
  /\ isoformat 730120 = lit "2000-01-01"
  /\ isoformat 738945 = lit "2024-02-29"
  /\ isoformat 739007 = lit "2024-05-01"
  /\ isoformat 3652059 = lit "9999-12-31".
Proof. repeat split; vm_compute; reflexivity. Qed.

(** ** Form helpers *)

Section UiFacts.
Import Ui.

Lemma keep_parts (tokens : list str) (parts : list str) :
  foldl keep_part tokens parts
  = tokens ++ filter (fun item => item <> []) (strip <$> parts).
Proof.
  revert tokens. induction parts as [|part parts IH]; intros tokens.
  - simpl. by rewrite app_nil_r.
  - cbn [foldl]. rewrite IH, fmap_cons, filter_cons. unfold keep_part.
    destruct (strip part) as [|c item] eqn:Hs.
    + by rewrite decide_False by (intros H; by apply H).
    + rewrite decide_True by done. by rewrite <- app_assoc.
Qed.

Lemma keep_lines (tokens : list str) (lines : list str) :
  foldl (fun tokens line => foldl keep_part tokens (split_on "," line))
        tokens lines
  = tokens ++ filter (fun item => item <> [])
                     (strip <$> (lines ≫= split_on ",")).
Proof.
  revert tokens. induction lines as [|line lines IH]; intros tokens.
  - simpl. by rewrite app_nil_r.
  - cbn [foldl]. rewrite IH, keep_parts, bind_cons, fmap_app, filter_app.
    by rewrite <- app_assoc.
Qed.

(** [_split_input] keeps the stripped parts that are not empty, line by
    line and comma by comma. *)
Lemma _split_input_spec (value : str) :
  _split_input value
  = filter (fun item => item <> [])
      (strip <$> (split_on LF (replace_char CR LF value) ≫= split_on ",")).
Proof.
  destruct value as [|c value]; [reflexivity|].
  unfold _split_input. by rewrite keep_lines.
Qed.

(** X1. Every item returned by [_split_input] is not empty, has no white
    space at either end and holds no comma, line feed or carriage
    return. *)
Theorem split_input_items_clean (value : str) :
  Forall clean_item (_split_input value).
Proof.
  rewrite _split_input_spec. apply Forall_forall. intros item Hitem.
  apply list_elem_of_filter in Hitem as [Hne Hitem].
  apply list_elem_of_fmap in Hitem as [part [-> Hpart]].
  apply list_elem_of_bind in Hpart as [line [Hpart Hline]].
  apply split_on_fields in Hpart as [Hsub Hcomma].
  apply split_on_fields in Hline as [Hsubl Hlf].
  pose proof (strip_subseteq part) as Hstrip.
  unfold clean_item. split; [done|]. split; [apply strip_stripped|].
  split; [|split].
  - intros H. by apply Hcomma, Hstrip.
  - intros H. by apply Hlf, Hsub, Hstrip.
  - intros H. apply Hstrip, Hsub, Hsubl in H.
    by apply replace_char_gone in H.
Qed.

Lemma split_on_join (cur x : str) (rest : list str) :
  Forall (fun item => ","%char ∉ item) (x :: rest) ->
  split_on_from "," cur (join (lit ", ") (x :: rest))
  = (cur ++ x) :: ((fun item => " "%char :: item) <$> rest).
Proof.
  revert cur x. induction rest as [|y rest IH]; intros cur x Hall.
  - apply Forall_cons in Hall as [Hx _]. simpl. by rewrite split_on_from_absent.
  - apply Forall_cons in Hall as [Hx Hall].
    rewrite join_cons by done.
    change (lit ", " ++ join (lit ", ") (y :: rest))
      with (","%char :: " "%char :: join (lit ", ") (y :: rest)).
    rewrite split_on_from_app by done. f_equal.
    change (split_on_from "," [] (" "%char :: join (lit ", ") (y :: rest)))
      with (split_on_from "," [" "%char] (join (lit ", ") (y :: rest))).
    by rewrite IH.
Qed.

(** X2. [_split_input] undoes [", ".join]: a list of clean items, joined
    with a comma and a space, is split into the same items. *)
Theorem split_input_join (items : list str) :
  Forall clean_item items ->
  _split_input (join (lit ", ") items) = items.
Proof.
  intros Hall. destruct items as [|x rest]; [reflexivity|].
  rewrite _split_input_spec.
  set (v := join (lit ", ") (x :: rest)).
  assert (Hnot : forall c, c <> ","%char -> c <> " "%char ->
            Forall (fun item => c ∉ item) (x :: rest) -> c ∉ v).
  { intros c Hc1 Hc2 Hc Hin. apply join_subseteq in Hin as [Hin | [z [Hz Hin]]].
    - apply elem_of_cons in Hin as [-> | Hin]; [done|].
      apply list_elem_of_singleton in Hin. done.
    - rewrite Forall_forall in Hc. by apply (Hc z). }
  assert (Hcr : CR ∉ v).
  { apply Hnot; [done | done |]. eapply Forall_impl; [exact Hall|].
    intros item H. apply H. }
  assert (Hlf : LF ∉ v).
  { apply Hnot; [done | done |]. eapply Forall_impl; [exact Hall|].
    intros item H. apply H. }
  rewrite replace_char_absent by done.
  assert (Hone : split_on LF v = [v])
    by (unfold split_on; by rewrite split_on_from_absent).
  rewrite Hone, bind_singleton. unfold split_on, v.
  rewrite split_on_join
    by (eapply Forall_impl; [exact Hall|]; intros item H; apply H).
  rewrite app_nil_l. apply Forall_cons in Hall as [Hx Hrest].
  rewrite fmap_cons, filter_cons, strip_id by apply Hx.
  rewrite decide_True by apply Hx. f_equal.
  clear Hnot Hcr Hlf Hone v.
  induction Hrest as [|y rest Hy Hrest IH]; [done|].
  rewrite !fmap_cons, filter_cons.
  change (strip (" "%char :: y)) with (strip ([" "%char] ++ y)).
  rewrite (strip_spaces [" "%char] y) by (by repeat constructor).
  rewrite strip_id by apply Hy. rewrite decide_True by apply Hy.
  f_equal. apply IH.
Qed.

Lemma split_input_join_witness :
  Forall clean_item Examples.wins
  /\ _split_input (join (lit ", ") Examples.wins) = Examples.wins.
Proof.
  assert (H : Forall clean_item Examples.wins).
  { repeat constructor; try done; try (intros c [= <-]; reflexivity);
      intros Hin; vm_compute in Hin;
      repeat (apply elem_of_cons in Hin as [Hin | Hin]; [discriminate|]);
      by apply elem_of_nil in Hin. }
  split; [exact H | apply (split_input_join Examples.wins H)].
Defined.

Section ParseFacts.
Variable strptime_time : str -> option time.
Variable int_ : str -> option Z.

Lemma parse_line_in_range (entries : list (time * Z)) (line : str) :
  Forall Storage.in_range entries ->
  Forall Storage.in_range (parse_line strptime_time int_ entries line).
Proof.
  intros H. unfold parse_line.
  destruct (strip line); [done|].
  destruct (filter _ _) as [|time_part [|level_part parts]]; [done | done |].
  destruct (strptime_time time_part) as [parsed_time|]; [|done].
  destruct (int_ level_part) as [level|]; [|done].
  destruct (Z.leb_spec 1 level); [|done].
  destruct (Z.leb_spec level 5); [|done]. simpl.
  apply Forall_app. split; [done|]. constructor; [|constructor].
  unfold Storage.in_range. simpl. lia.
Qed.

Lemma parse_lines_in_range (raw : str) :
  Forall Storage.in_range (_parse_energy_pattern strptime_time int_ raw).
Proof.
  unfold _parse_energy_pattern. destruct raw as [|c raw]; [constructor|].
  generalize (split_on LF (replace_char CR LF (c :: raw))). intros lines.
  assert (H : Forall Storage.in_range (@nil (time * Z))) by constructor.
  revert H. generalize (@nil (time * Z)).
  induction lines as [|line lines IH]; intros entries H; simpl; [done|].
  apply IH. by apply parse_line_in_range.
Qed.

(** X3. Whatever texts the two parsers accept, every entry returned by
    [_parse_energy_pattern] has a level from 1 to 5, and a text without
    any line of two parts gives no entry. *)
Theorem parse_energy_pattern_in_range (raw : str) :
  Forall Storage.in_range (_parse_energy_pattern strptime_time int_ raw)
  /\ (Forall (fun c => isspace c = true) raw ->
      _parse_energy_pattern strptime_time int_ raw = []).
Proof.
  split; [apply parse_lines_in_range|].
  intros Hblank. unfold _parse_energy_pattern.
  destruct raw as [|c raw]; [done|].
  assert (Hlines : Forall (fun line => strip line = [])
            (split_on LF (replace_char CR LF (c :: raw)))).
  { apply Forall_forall. intros line Hline.
    apply split_on_fields in Hline as [Hsub _].
    assert (Hall : Forall (fun c => isspace c = true) line).
    { apply Forall_forall. intros x Hx. apply Hsub in Hx.
      unfold replace_char in Hx.
      apply list_elem_of_fmap in Hx as [y [-> Hy]].
      case_decide; [reflexivity|].
      rewrite Forall_forall in Hblank. by apply Hblank. }
    unfold strip. rewrite <- (app_nil_r line).
    by rewrite lstrip_spaces. }
  generalize dependent (split_on LF (replace_char CR LF (c :: raw))).
  intros lines Hlines. induction Hlines as [|line lines Hl _ IH]; [done|].
  cbn [foldl]. unfold parse_line at 2. by rewrite Hl.
Qed.

End ParseFacts.

End UiFacts.

(** ** Normalising the lists of a check-in *)

Section SchemaFacts.
Import MorningContext.

Lemma normalised_texts (items : list object) :
  Forall (fun s => s <> [] /\ stripped s)
    (strip <$> (to_str <$>
       filter (fun item => strip (to_str item) <> []) items)).
Proof.
  induction items as [|item items IH]; [constructor|].
  rewrite filter_cons. case_decide as Hne; [|done].
  rewrite !fmap_cons. constructor; [|done].
  split; [done | apply strip_stripped].
Qed.

Lemma normalise_texts_again (texts : list str) :
  Forall (fun s => s <> [] /\ stripped s) texts ->
  strip <$> (to_str <$>
    filter (fun item => strip (to_str item) <> []) (Str <$> texts))
  = texts.
Proof.
  induction 1 as [|s texts [Hne Hs] _ IH]; [done|].
  rewrite fmap_cons, filter_cons. simpl to_str.
  rewrite (strip_id s) by done. rewrite decide_True by done.
  rewrite !fmap_cons. simpl to_str. rewrite (strip_id s) by done.
  by rewrite IH.
Qed.

(** X5. [_normalise_strings] is idempotent. [None] gives the empty list;
    a text is treated as the list of that one text; the list made of
    [None], of a text or of a sequence holds only texts that are not empty
    and have no white space at either end; any other value is returned
    unchanged. *)
Theorem normalise_strings_idempotent (value : raw) :
  _normalise_strings (_normalise_strings value) = _normalise_strings value
  /\ _normalise_strings RawNone = RawItems []
  /\ (forall s, _normalise_strings (RawStr s)
                = _normalise_strings (RawItems [Str s]))
  /\ (forall o, _normalise_strings (RawOther o) = RawOther o)
  /\ ((forall o, value <> RawOther o) ->
      exists texts,
        _normalise_strings value = RawItems (Str <$> texts)
        /\ Forall (fun s => s <> [] /\ stripped s) texts).
Proof.
  assert (Hitems : forall items,
    let texts := strip <$> (to_str <$>
                   filter (fun item => strip (to_str item) <> []) items) in
    _normalise_strings (RawItems (Str <$> texts)) = RawItems (Str <$> texts)).
  { intros items texts. unfold _normalise_strings.
    by rewrite (normalise_texts_again texts (normalised_texts items)). }
  split; [|split; [reflexivity|split; [reflexivity|split; [reflexivity|]]]].
  - destruct value as [|s|items|o]; [reflexivity | apply (Hitems [Str s])
                                    | apply (Hitems items) | reflexivity].
  - destruct value as [|s|items|o]; intros Hother.
    + exists []. split; [done | constructor].
    + eexists. split; [reflexivity | apply normalised_texts].
    + eexists. split; [reflexivity | apply normalised_texts].
    + by destruct (Hother o).
Qed.

End SchemaFacts.

(** ** More on dictionaries *)

Section DictSplit.
Context {K V : Type} `{EqDecision K}.
Implicit Types (d : dict K V) (k : K) (v : V).

(** A key that is bound sits at one place, and assignment changes the
    value at that place only. *)
Lemma get_Some_split d k v :
  get d k = Some v ->
  exists l1 l2,
    d = l1 ++ (k, v) :: l2
    /\ (k ∉ keys l1)
    /\ forall v', set d k v' = l1 ++ (k, v') :: l2.
Proof.
  induction d as [|[k0 v0] d IH]; simpl; [done|].
  destruct (decide (k0 = k)) as [-> | Hne].
  - intros [= ->]. exists [], d. split; [done|].
    split; [apply not_elem_of_nil | done].
  - intros Hget. destruct (IH Hget) as (l1 & l2 & -> & Hk & Hset).
    exists ((k0, v0) :: l1), l2. split; [done|]. split.
    + unfold keys in *. rewrite fmap_cons. simpl.
      apply not_elem_of_cons. split; [congruence | done].
    + intros v'. simpl. by rewrite Hset.
Qed.

Lemma get_Some_values d k v : get d k = Some v -> v ∈ values d.
Proof.
  intros H. apply get_Some_elem_of in H. unfold values.
  apply list_elem_of_fmap. by exists (k, v).
Qed.

Lemma set_not_nil d k v : set d k v <> [].
Proof. destruct d as [|[k0 v0] d]; simpl; [done|]. by case_decide. Qed.

Lemma set_set d k v v' : set (set d k v) k v' = set d k v'.
Proof.
  induction d as [|[k0 v0] d IH]; simpl.
  - by rewrite decide_True.
  - destruct (decide (k0 = k)) as [-> | Hne]; simpl.
    + by rewrite decide_True.
    + rewrite decide_False by done. by rewrite IH.
Qed.

Lemma keys_set d k v :
  keys (set d k v) = if decide (k ∈ keys d) then keys d else keys d ++ [k].
Proof.
  case_decide as Hin.
  - by apply keys_set_present.
  - rewrite set_absent by done. unfold keys. by rewrite fmap_app.
Qed.

Lemma NoDup_keys_set d k v : NoDup (keys d) -> NoDup (keys (set d k v)).
Proof.
  intros Hd. rewrite keys_set. case_decide as Hin; [done|].
  apply NoDup_app. split; [done|]. split.
  - intros x Hx Hk. apply list_elem_of_singleton in Hk as ->. done.
  - apply NoDup_singleton.
Qed.

Lemma Forall_set (P : K * V -> Prop) d k v :
  Forall P d -> P (k, v) -> Forall P (set d k v).
Proof.
  intros Hd Hkv. induction Hd as [|[k0 v0] d H0 Hd IH]; simpl.
  - by constructor.
  - destruct (decide (k0 = k)) as [-> | Hne]; by constructor.
Qed.

End DictSplit.

(** ** Recall *)

Lemma split_from_substring (cur s w : str) :
  w ∈ split_from cur s -> substring w (cur ++ s).
Proof.
  revert cur. induction s as [|c s IH]; intros cur; simpl.
  - destruct cur as [|x cur]; intros H; [by apply elem_of_nil in H|].
    apply list_elem_of_singleton in H as ->. exists [], []. by rewrite app_nil_r.
  - destruct (isspace c).
    + destruct cur as [|x cur].
      * intros H. apply IH in H. simpl in H.
        by apply (substring_app_r w [c] s).
      * intros H. apply elem_of_cons in H as [-> | H].
        -- exists [], (c :: s). done.
        -- apply IH in H. simpl in H.
           apply (substring_app_r w ((x :: cur) ++ [c]) s) in H.
           by rewrite <- app_assoc in H.
    + intros H. apply IH in H. by rewrite <- app_assoc in H.
Qed.

Lemma split_substring (s w : str) : w ∈ split s -> substring w s.
Proof. apply (split_from_substring [] s w). Qed.

Lemma substring_lower (t s : str) :
  substring t s -> substring (lower t) (lower s).
Proof. intros [p [q ->]]. exists (lower p), (lower q). by rewrite !lower_app. Qed.

Section MemoryMore.
Import Memory.

(** The records after [add_interaction] are the records before with the
    new record put in at the end of its bucket. *)
Lemma add_interaction_records (today : str) (now : datetime)
    (self : MemoryService) (input response : str) (metadata : dict str object) :
  exists l1 l2,
    records self = l1 ++ l2
    /\ records (add_interaction today now self input response metadata)
       = l1 ++ {| user_input := input; ai_response := response;
                  metadata := metadata; created_at := now |} :: l2.
Proof.
  unfold add_interaction, records, setdefault_append. simpl.
  set (key := bucket_key today metadata).
  destruct (get (_sessions self) key) as [bucket|] eqn:Hget.
  - destruct (get_Some_split _ _ _ Hget) as (p & q & Hd & _ & Hset).
    rewrite Hset, Hd. unfold values. rewrite !fmap_app, !fmap_cons. simpl.
    rewrite !concat_app. simpl.
    exists (concat p.*2 ++ bucket), (concat q.*2).
    by rewrite <- !app_assoc.
  - apply get_None_keys in Hget. rewrite set_absent by done.
    unfold values. rewrite fmap_app, concat_app. simpl.
    exists (concat (_sessions self).*2), []. by rewrite app_nil_r.
Qed.

(** X6. [add_interaction] only appends: the records kept before are still
    there, in their order, exactly one record is added, and the number
    of buckets grows by one at most. *)
Theorem add_interaction_append_only (today : str) (now : datetime)
    (self : MemoryService) (input response : str) (metadata : dict str object) :
  let self' := add_interaction today now self input response metadata in
  records self `sublist_of` records self'
  /\ length (records self') = S (length (records self))
  /\ (length (_sessions self) <= length (_sessions self')
      <= S (length (_sessions self)))%nat.
Proof.
  intros self'.
  destruct (add_interaction_records today now self input response metadata)
    as (l1 & l2 & Hold & Hnew).
  fold self' in Hnew. rewrite Hold, Hnew. split; [|split].
  - apply sublist_app; [done|]. by apply sublist_cons.
  - rewrite !length_app. simpl. lia.
  - unfold self', add_interaction, setdefault_append. simpl.
    assert (Hlen : forall d : dict str (list MemoryRecord),
              length d = length (keys d))
      by (intros d; unfold keys; by rewrite length_fmap).
    rewrite !Hlen.
    destruct (get (_sessions self) (bucket_key today metadata));
      rewrite keys_set; case_decide; rewrite ?length_app; simpl; lia.
Qed.

(** X7. The context of a date is the responses of the last five records of
    the bucket of that date, oldest first; it is empty while the date
    has no bucket. *)
Theorem get_context_for_date_last_five (isoformat : date -> str)
    (self : MemoryService) (target_date : date) :
  let bucket := default [] (get (_sessions self) (isoformat target_date)) in
  get_context_for_date isoformat self target_date
  = (ai_response <$> drop (length bucket - 5) bucket, target_date)
  /\ (length (get_context_for_date isoformat self target_date).1 <= 5)%nat
  /\ (get (_sessions self) (isoformat target_date) = None ->
      (get_context_for_date isoformat self target_date).1 = []).
Proof.
  intros bucket. unfold get_context_for_date. fold bucket.
  assert (H5 : slice_from bucket (- 5) = drop (length bucket - 5) bucket)
    by (apply (slice_from_tail bucket 5); lia).
  rewrite H5. simpl.
  split; [done|]. split.
  - rewrite length_fmap, length_drop. lia.
  - intros Hnone. unfold bucket. by rewrite Hnone.
Qed.

(** X8. An interaction filed under the key of a date is the last entry of
    the context of that date. *)
Theorem get_context_after_add (isoformat : date -> str) (today : str)
    (now : datetime) (self : MemoryService) (input response : str)
    (metadata : dict str object) (target_date : date) :
  bucket_key today metadata = isoformat target_date ->
  last (get_context_for_date isoformat
          (add_interaction today now self input response metadata)
          target_date).1
  = Some response.
Proof.
  intros Hkey. unfold get_context_for_date, add_interaction, setdefault_append.
  simpl. rewrite Hkey.
  assert (Hlast : forall bucket : list MemoryRecord,
    last (ai_response <$>
            slice_from (bucket ++ [{| user_input := input;
                                      ai_response := response;
                                      metadata := metadata;
                                      created_at := now |}]) (- 5))
    = Some response).
  { intros bucket.
    set (record := {| user_input := input; ai_response := response;
                      metadata := metadata; created_at := now |}).
    assert (H5 : slice_from (bucket ++ [record]) (- 5)
                 = drop (length (bucket ++ [record]) - 5) (bucket ++ [record]))
      by (apply (slice_from_tail (bucket ++ [record]) 5); lia).
    rewrite H5, length_app. simpl length.
    rewrite drop_app_le by lia. rewrite fmap_app.
    apply (last_snoc response). }
  destruct (get (_sessions self) (isoformat target_date)) as [bucket|];
    rewrite get_set_eq; [apply (Hlast bucket) | apply (Hlast [])].
Qed.

Lemma get_context_after_add_witness :
  bucket_key (lit "2024-05-01") Examples.metadata_checkin = isoformat 739007
  /\ last (get_context_for_date isoformat
             (add_interaction (lit "2024-05-01") 300 Examples.memory_two
                (lit "Morning check-in energy=4") (lit "Good morning!")
                Examples.metadata_checkin)
             739007).1
     = Some (lit "Good morning!").
Proof.
  split; [reflexivity|].
  apply (get_context_after_add isoformat (lit "2024-05-01") 300
           Examples.memory_two (lit "Morning check-in energy=4")
           (lit "Good morning!") Examples.metadata_checkin 739007).
  reflexivity.
Defined.

(** A record matches the query made of its own input. *)
Lemma own_input_matches (record : MemoryRecord) :
  all_tokens_in (query_tokens (user_input record)) record = true.
Proof.
  apply all_tokens_in_spec. intros token Htoken.
  apply query_tokens_spec in Htoken as [w [Hw ->]].
  rewrite haystack_eq. apply substring_app_l, substring_lower.
  by apply split_substring.
Qed.

(** X9. An interaction can be recalled by its own input: once it is added,
    a search for the text of its input returns its response, if the
    limit is at least the number of records kept. *)
Theorem search_memories_recalls (today : str) (now : datetime)
    (self : MemoryService) (input response : str)
    (metadata : dict str object) (limit : Z) :
  let self' := add_interaction today now self input response metadata in
  Z.of_nat (length (records self')) <= limit ->
  response ∈ search_memories self' input limit.
Proof.
  intros self' Hlimit. rewrite search_memories_spec.
  destruct (add_interaction_records today now self input response metadata)
    as (l1 & l2 & _ & Hnew).
  fold self' in Hnew.
  set (record := {| user_input := input; ai_response := response;
                    metadata := metadata; created_at := now |}) in *.
  apply list_elem_of_fmap. exists record. split; [done|].
  rewrite take_ge.
  - apply list_elem_of_filter. split; [apply (own_input_matches record)|].
    rewrite Hnew. apply elem_of_app. right. left.
  - pose proof (length_filter
      (fun r => all_tokens_in (query_tokens input) r = true) (records self')).
    lia.
Qed.

Lemma search_memories_recalls_witness :
  Z.of_nat (length (records
     (add_interaction (lit "2024-05-01") 300 Examples.memory_two
        (lit "Ship the release today?") (lit "Recorded decision with 2 options.")
        []))) <= 5
  /\ lit "Recorded decision with 2 options."
     ∈ search_memories
         (add_interaction (lit "2024-05-01") 300 Examples.memory_two
            (lit "Ship the release today?")
            (lit "Recorded decision with 2 options.") [])
         (lit "Ship the release today?") 5.
Proof.
  assert (H : Z.of_nat (length (records
     (add_interaction (lit "2024-05-01") 300 Examples.memory_two
        (lit "Ship the release today?") (lit "Recorded decision with 2 options.")
        []))) <= 5) by (vm_compute; congruence).
  split; [exact H|].
  apply (search_memories_recalls (lit "2024-05-01") 300 Examples.memory_two
           (lit "Ship the release today?")
           (lit "Recorded decision with 2 options.") [] 5 H).
Defined.

(** X10. For every limit, [search_memories] returns the responses of the
    first matching records in scan order, as many as the limit and never
    fewer than one when a record matches: the limit is compared after a
    match is appended. *)
Theorem search_memories_first_matches
    (self : MemoryService) (query : str) (limit : Z) :
  search_memories self query limit
  = ai_response <$>
      take (Z.to_nat (Z.max 1 limit))
           (filter (fun r => all_tokens_in (query_tokens query) r = true)
                   (records self))
  /\ forall record, record ∈ records self ->
       all_tokens_in (query_tokens query) record = true ->
       search_memories self query limit <> [].
Proof.
  split; [apply search_memories_spec|].
  intros record Hin Hmatch. rewrite search_memories_spec.
  assert (Hf : record ∈ filter
            (fun r => all_tokens_in (query_tokens query) r = true)
            (records self)) by (by apply list_elem_of_filter).
  destruct (filter _ (records self)) as [|r l]; [by apply elem_of_nil in Hf|].
  replace (Z.to_nat (Z.max 1 limit)) with (S (Z.to_nat (Z.max 1 limit) - 1))
    by lia.
  done.
Qed.

End MemoryMore.

(** ** More on the session store *)

Section StorageMore.
Import Storage.

Lemma well_keyed_init : well_keyed init.
Proof. repeat split; constructor. Qed.

Lemma store_session_well_keyed (self : InMemoryStore) (d : date)
    (session : DailySession.t) :
  well_keyed self -> DailySession.date session = d ->
  well_keyed (store_session self d session).
Proof.
  intros (Hs1 & Hs2 & Ht1 & Ht2) Hd. unfold well_keyed, store_session. simpl.
  split; [by apply NoDup_keys_set|]. split; [by apply Forall_set|]. done.
Qed.

Lemma get_or_create_session_well_keyed (fresh : UUID) (self : InMemoryStore)
    (d : date) :
  well_keyed self ->
  well_keyed (get_or_create_session fresh self d).2
  /\ DailySession.date (get_or_create_session fresh self d).1 = d.
Proof.
  intros Hwk. unfold get_or_create_session.
  destruct (get (_sessions self) d) as [session|] eqn:Hget; simpl.
  - split; [done|]. destruct Hwk as (_ & Hs2 & _).
    apply get_Some_elem_of in Hget. rewrite Forall_forall in Hs2.
    apply (Hs2 _ Hget).
  - split; [|done]. by apply store_session_well_keyed.
Qed.

Lemma apply_call_well_keyed (self : InMemoryStore) (c : call) :
  well_keyed self -> well_keyed (apply_call self c).
Proof.
  intros Hwk. unfold apply_call.
  destruct (get_or_create_session_well_keyed (fresh_id c) self (on_date c) Hwk)
    as [Hwk1 Hd].
  destruct (what c) as [now context | reflection | decision];
    unfold update_morning_context, update_evening_reflection, add_decision;
    destruct (get_or_create_session (fresh_id c) self (on_date c))
      as [session self1];
    simpl in *; by apply store_session_well_keyed.
Qed.

Lemma store_task_well_keyed (self : InMemoryStore) (task : Task.t) :
  well_keyed self -> well_keyed (store_task self task).
Proof.
  intros (Hs1 & Hs2 & Ht1 & Ht2). unfold well_keyed, store_task. simpl.
  split; [done|]. split; [done|].
  split; [by apply NoDup_keys_set | by apply Forall_set].
Qed.

Lemma upsert_tasks_well_keyed (self : InMemoryStore) (tasks : list Task.t) :
  well_keyed self -> well_keyed (upsert_tasks self tasks).
Proof.
  unfold upsert_tasks. revert self.
  induction tasks as [|task tasks IH]; intros self Hwk; simpl; [done|].
  by apply IH, store_task_well_keyed.
Qed.

Lemma run_well_keyed (self : InMemoryStore) (calls : list call) :
  well_keyed self -> well_keyed (run self calls).
Proof.
  unfold run. revert self.
  induction calls as [|c calls IH]; intros self Hwk; simpl; [done|].
  by apply IH, apply_call_well_keyed.
Qed.

(** X11. One session per date and one task per identifier, each kept under
    its own key: every operation of the store keeps it so. *)
Theorem well_keyed_preserved (self : InMemoryStore) :
  well_keyed self ->
  (forall fresh d, well_keyed (get_or_create_session fresh self d).2)
  /\ (forall calls, well_keyed (run self calls))
  /\ (forall event, well_keyed (add_event self event))
  /\ (forall tasks, well_keyed (upsert_tasks self tasks))
  /\ (forall fresh1 fresh2 fresh3 today,
        well_keyed (seed_sample_tasks fresh1 fresh2 fresh3 today self)).
Proof.
  intros Hwk. split; [|split; [|split; [|split]]].
  - intros fresh d. by apply get_or_create_session_well_keyed.
  - intros calls. by apply run_well_keyed.
  - intros event. exact Hwk.
  - intros tasks. by apply upsert_tasks_well_keyed.
  - intros fresh1 fresh2 fresh3 today. unfold seed_sample_tasks.
    destruct (_tasks self); [by apply upsert_tasks_well_keyed | done].
Qed.

Lemma well_keyed_preserved_witness :
  well_keyed init
  /\ (forall fresh d, well_keyed (get_or_create_session fresh init d).2)
  /\ (forall calls, well_keyed (run init calls))
  /\ (forall event, well_keyed (add_event init event))
  /\ (forall tasks, well_keyed (upsert_tasks init tasks))
  /\ (forall fresh1 fresh2 fresh3 today,
        well_keyed (seed_sample_tasks fresh1 fresh2 fresh3 today init)).
Proof.
  split; [exact well_keyed_init|].
  apply (well_keyed_preserved init well_keyed_init).
Defined.

(** The session a call works on, and what the call leaves for the other
    dates. *)
Lemma apply_call_other (self : InMemoryStore) (c : call) (d : date) :
  on_date c <> d -> get_session (apply_call self c) d = get_session self d.
Proof.
  intros Hne. unfold apply_call.
  pose proof (get_or_create_session_other (fresh_id c) self _ _ Hne) as Ho.
  destruct (what c) as [now context | reflection | decision];
    unfold update_morning_context, update_evening_reflection, add_decision;
    destruct (get_or_create_session (fresh_id c) self (on_date c))
      as [session self1];
    simpl in *; unfold get_session, store_session in *; simpl;
    rewrite get_set_ne by done; by rewrite Ho.
Qed.

Lemma apply_call_same (self : InMemoryStore) (c : call) :
  exists session,
    get_session (apply_call self c) (on_date c) = Some session
    /\ DailySession.id session
       = DailySession.id (get_or_create_session (fresh_id c) self (on_date c)).1
    /\ DailySession.date session
       = DailySession.date (get_or_create_session (fresh_id c) self (on_date c)).1
    /\ DailySession.decisions session
       = DailySession.decisions
           (get_or_create_session (fresh_id c) self (on_date c)).1
         ++ decisions_for (on_date c) c
    /\ DailySession.morning_context session
       = from_option Some
           (DailySession.morning_context
              (get_or_create_session (fresh_id c) self (on_date c)).1)
           (last (mornings_for (on_date c) c))
    /\ DailySession.evening_reflection session
       = from_option Some
           (DailySession.evening_reflection
              (get_or_create_session (fresh_id c) self (on_date c)).1)
           (last (evenings_for (on_date c) c)).
Proof.
  unfold apply_call, decisions_for, mornings_for, evenings_for.
  rewrite !decide_True by done.
  destruct (what c) as [now context | reflection | decision];
    unfold update_morning_context, update_evening_reflection, add_decision;
    destruct (get_or_create_session (fresh_id c) self (on_date c))
      as [session self1];
    simpl; unfold get_session, store_session; simpl;
    rewrite get_set_eq; eexists; (split; [reflexivity|]); simpl;
    rewrite ?app_nil_r; done.
Qed.

Lemma get_or_create_session_existing (fresh : UUID) (self : InMemoryStore)
    (d : date) (session : DailySession.t) :
  get_session self d = Some session ->
  get_or_create_session fresh self d = (session, self).
Proof.
  unfold get_session, get_or_create_session. by intros ->.
Qed.

(** X12. A session, once kept for a date, stays: after any history of calls
    the date still has a session, with the same identifier and date. *)
Theorem session_identity_stable (self : InMemoryStore) (calls : list call)
    (d : date) (session : DailySession.t) :
  get_session self d = Some session ->
  exists session',
    get_session (run self calls) d = Some session'
    /\ DailySession.id session' = DailySession.id session
    /\ DailySession.date session' = DailySession.date session.
Proof.
  unfold run. revert self session.
  induction calls as [|c calls IH]; intros self session Hget; simpl.
  - by exists session.
  - destruct (decide (on_date c = d)) as [<- | Hne].
    + destruct (apply_call_same self c) as (s1 & Hs1 & Hid & Hdate & _).
      rewrite (get_or_create_session_existing _ _ _ _ Hget) in Hid, Hdate.
      simpl in *. destruct (IH _ _ Hs1) as (s' & Hs' & Hid' & Hdate').
      exists s'. split; [done|]. split; congruence.
    + apply (IH (apply_call self c) session).
      by rewrite apply_call_other.
Qed.

Lemma session_identity_stable_witness :
  get_session Examples.store_zero 739000
  = Some (update_evening_reflection 1%N init 739000 Examples.reflection_zero).1
  /\ exists session',
       get_session (run Examples.store_zero Examples.calls_day) 739000
       = Some session'
       /\ DailySession.id session'
          = DailySession.id
              (update_evening_reflection 1%N init 739000
                 Examples.reflection_zero).1
       /\ DailySession.date session'
          = DailySession.date
              (update_evening_reflection 1%N init 739000
                 Examples.reflection_zero).1.
Proof.
  split; [reflexivity|].
  apply (session_identity_stable Examples.store_zero Examples.calls_day 739000).
  reflexivity.
Defined.

Lemma get_or_create_session_fields (fresh : UUID) (self : InMemoryStore)
    (d : date) :
  DailySession.decisions (get_or_create_session fresh self d).1
  = decisions_on self d
  /\ DailySession.morning_context (get_or_create_session fresh self d).1
     = morning_on self d
  /\ DailySession.evening_reflection (get_or_create_session fresh self d).1
     = evening_on self d.
Proof.
  unfold get_or_create_session, decisions_on, morning_on, evening_on, get_session.
  by destruct (get (_sessions self) d).
Qed.

Lemma apply_call_fields (self : InMemoryStore) (c : call) (d : date) :
  decisions_on (apply_call self c) d
  = decisions_on self d ++ decisions_for d c
  /\ morning_on (apply_call self c) d
     = from_option Some (morning_on self d) (last (mornings_for d c))
  /\ evening_on (apply_call self c) d
     = from_option Some (evening_on self d) (last (evenings_for d c)).
Proof.
  destruct (decide (on_date c = d)) as [<- | Hne].
  - destruct (apply_call_same self c) as (s & Hs & _ & _ & Hdec & Hm & He).
    destruct (get_or_create_session_fields (fresh_id c) self (on_date c))
      as (Fd & Fm & Fe).
    unfold decisions_on at 1, morning_on at 1, evening_on at 1.
    rewrite Hs, Hdec, Hm, He, Fd, Fm, Fe. done.
  - unfold decisions_on, morning_on, evening_on.
    rewrite apply_call_other by done.
    unfold decisions_for, mornings_for, evenings_for.
    rewrite !decide_False by done. simpl. by rewrite app_nil_r.
Qed.

(** X13. The decisions of a date are kept in the order they are added:
    after any history of calls they are the earlier ones followed by the
    decisions added for that date, and none is dropped. *)
Theorem decisions_accumulate (self : InMemoryStore) (calls : list call)
    (d : date) :
  decisions_on (run self calls) d
  = decisions_on self d ++ (calls ≫= decisions_for d).
Proof.
  unfold run. revert self.
  induction calls as [|c calls IH]; intros self.
  - simpl. by rewrite app_nil_r.
  - cbn [foldl]. rewrite IH, bind_cons.
    destruct (apply_call_fields self c d) as [-> _].
    by rewrite <- app_assoc.
Qed.

(** X14. A morning context and an evening reflection are replaced as a
    whole: after any history of calls a date shows the context of its
    last check-in and the reflection of its last reflection call, or what
    it showed before if the history has none for that date. *)
Theorem last_update_wins (self : InMemoryStore) (calls : list call) (d : date) :
  morning_on (run self calls) d
  = from_option Some (morning_on self d) (last (calls ≫= mornings_for d))
  /\ evening_on (run self calls) d
     = from_option Some (evening_on self d) (last (calls ≫= evenings_for d)).
Proof.
  unfold run. revert self.
  induction calls as [|c calls IH]; intros self; [done|].
  cbn [foldl]. destruct (IH (apply_call self c)) as [-> ->].
  destruct (apply_call_fields self c d) as (_ & -> & ->).
  rewrite !bind_cons, !last_app.
  split.
  - by destruct (last (calls ≫= mornings_for d)).
  - by destruct (last (calls ≫= evenings_for d)).
Qed.

End StorageMore.

(** ** Listing sessions, tasks and recent entries *)

Section DictCommute.
Context {K V : Type} `{EqDecision K}.
Implicit Types (d : dict K V) (k : K) (v : V).

Lemma get_set d k k' v :
  get (set d k v) k' = if decide (k = k') then Some v else get d k'.
Proof.
  case_decide as Hk; [subst; apply get_set_eq | by apply get_set_ne].
Qed.

Lemma set_id d k v : get d k = Some v -> set d k v = d.
Proof.
  intros H. destruct (get_Some_split d k v H) as (l1 & l2 & Hd & _ & Hset).
  by rewrite Hset.
Qed.

(** Two assignments to different keys commute when the key assigned
    second is already bound. *)
Lemma set_commute d k k' v v' :
  k <> k' -> k' ∈ keys d ->
  set (set d k v) k' v' = set (set d k' v') k v.
Proof.
  intros Hne Hin. induction d as [|[k0 v0] d IH]; simpl.
  - by apply elem_of_nil in Hin.
  - destruct (decide (k0 = k)) as [-> | Hk]; simpl.
    + rewrite !decide_False by done. simpl. by rewrite decide_True.
    + destruct (decide (k0 = k')) as [-> | Hk']; simpl.
      * by rewrite decide_False by done.
      * rewrite decide_False by done. f_equal. apply IH.
        unfold keys in Hin. rewrite fmap_cons in Hin. simpl in Hin.
        apply elem_of_cons in Hin as [? | ?]; [congruence | done].
Qed.

Lemma filter_none {A} (P : A -> Prop) `{forall x, Decision (P x)} (l : list A) :
  Forall (fun x => ~ P x) l -> filter P l = [].
Proof.
  induction 1 as [|x l Hx _ IH]; [done|].
  by rewrite filter_cons, decide_False.
Qed.

Lemma Forall_keys (P : K -> Prop) (l : list (K * V)) :
  (forall k, k ∈ keys l -> P k) -> Forall (fun item => P item.1) l.
Proof.
  intros H. apply Forall_forall. intros [k v] Hin. apply H.
  unfold keys. apply list_elem_of_fmap. by exists (k, v).
Qed.

End DictCommute.

Section StorageLists.
Import Storage.

(** X15. [list_sessions] returns every session of the store once, the
    newest date first. *)
Theorem list_sessions_newest_first (self : InMemoryStore) :
  StronglySorted
    (fun a b => DailySession.date b <= DailySession.date a)
    (list_sessions self)
  /\ list_sessions self ≡ₚ values (_sessions self).
Proof. split; [apply sorted_reverse_sorted | apply sorted_reverse_perm]. Qed.

(** X16. [get_sessions_between] keeps the order of the store, and a range
    whose end lies before its start gives no session (and no error). *)
Theorem get_sessions_between_order (self : InMemoryStore) (start end_ : date) :
  get_sessions_between self start end_ `sublist_of` values (_sessions self)
  /\ (end_ < start -> get_sessions_between self start end_ = []).
Proof.
  unfold get_sessions_between, values. split.
  - apply fmap_sublist, sublist_filter.
  - intros Hlt.
    assert (Hnil : filter (fun item : date * DailySession.t =>
                             start <= item.1 /\ item.1 <= end_)
                          (_sessions self) = []).
    { apply filter_none, Forall_forall. intros item _. lia. }
    by rewrite Hnil.
Qed.

Lemma filter_one_date (sessions : list (date * DailySession.t)) (d : date) :
  NoDup (keys sessions) ->
  (filter (fun item : date * DailySession.t => d <= item.1 /\ item.1 <= d)
          sessions).*2
  = option_list (get sessions d).
Proof.
  induction sessions as [|[k0 v0] sessions IH]; intros Hnd; [done|].
  unfold keys in Hnd. rewrite fmap_cons in Hnd. simpl in Hnd.
  apply NoDup_cons in Hnd as [Hk0 Hnd].
  rewrite filter_cons. simpl. destruct (decide (k0 = d)) as [-> | Hne].
  - rewrite decide_True by lia.
    assert (Hnil : filter (fun item : date * DailySession.t =>
                             d <= item.1 /\ item.1 <= d) sessions = []).
    { apply filter_none.
      apply (Forall_keys (fun k => ~ (d <= k /\ k <= d))).
      intros k Hk [? ?]. assert (k = d) by lia. subst. done. }
    by rewrite Hnil.
  - rewrite decide_False by lia. by apply IH.
Qed.

(** X17. In a store with one session per date, the range from a date to
    the same date gives the session of that date, or nothing when the date
    has none. *)
Theorem get_sessions_between_one_date (self : InMemoryStore) (d : date) :
  well_keyed self ->
  get_sessions_between self d d = option_list (get_session self d).
Proof.
  intros (Hnd & _). unfold get_sessions_between, get_session.
  by apply filter_one_date.
Qed.

Lemma get_sessions_between_one_date_witness :
  well_keyed Examples.store_decisions
  /\ get_sessions_between Examples.store_decisions 738999 738999
     = option_list (get_session Examples.store_decisions 738999).
Proof.
  assert (H : well_keyed Examples.store_decisions).
  { apply run_well_keyed, well_keyed_init. }
  split; [exact H|].
  apply (get_sessions_between_one_date Examples.store_decisions 738999 H).
Defined.

(** *** Tasks *)

Lemma upsert_tasks_fields (self : InMemoryStore) (tasks : list Task.t) :
  upsert_tasks self tasks
  = {| _sessions := _sessions self;
       _events := _events self;
       _tasks := foldl (fun d task => set d (Task.id task) task)
                       (_tasks self) tasks |}.
Proof.
  unfold upsert_tasks. revert self.
  induction tasks as [|task tasks IH]; intros self; simpl.
  - by destruct self.
  - by rewrite IH.
Qed.

Lemma upsert_get (d : dict UUID Task.t) (tasks : list Task.t) (id : UUID) :
  get (foldl (fun d task => set d (Task.id task) task) d tasks) id
  = from_option Some (get d id)
      (last (filter (fun task => Task.id task = id) tasks)).
Proof.
  revert d. induction tasks as [|task tasks IH]; intros d; [done|].
  cbn [foldl]. rewrite IH, get_set, filter_cons.
  destruct (decide (Task.id task = id)) as [Heq | Hne].
  - rewrite last_cons. by destruct (last (filter _ tasks)).
  - done.
Qed.

(** X18. After [upsert_tasks] an identifier shows the last task given for
    it, and an identifier that was not given shows what it showed
    before. *)
Theorem upsert_tasks_lookup (self : InMemoryStore) (tasks : list Task.t)
    (id : UUID) :
  get (_tasks (upsert_tasks self tasks)) id
  = from_option Some (get (_tasks self) id)
      (last (filter (fun task => Task.id task = id) tasks)).
Proof. rewrite upsert_tasks_fields. simpl. apply upsert_get. Qed.

Lemma upsert_keys (d : dict UUID Task.t) (tasks : list Task.t) (id : UUID) :
  id ∈ keys d \/ id ∈ Task.id <$> tasks ->
  id ∈ keys (foldl (fun d task => set d (Task.id task) task) d tasks).
Proof.
  revert d. induction tasks as [|task tasks IH]; intros d; simpl.
  - intros [? | H]; [done | by apply elem_of_nil in H].
  - intros H. apply IH. rewrite keys_set.
    destruct H as [H | H].
    + left. case_decide; [done|]. apply elem_of_app. by left.
    + apply elem_of_cons in H as [-> | H]; [|by right].
      left. case_decide; [done|]. apply elem_of_app. right. left.
Qed.

Lemma upsert_set (d : dict UUID Task.t) (tasks : list Task.t)
    (k : UUID) (v : Task.t) :
  (forall task, task ∈ tasks -> Task.id task ∈ keys d) ->
  foldl (fun d task => set d (Task.id task) task) (set d k v) tasks
  = if decide (k ∈ Task.id <$> tasks)
    then foldl (fun d task => set d (Task.id task) task) d tasks
    else set (foldl (fun d task => set d (Task.id task) task) d tasks) k v.
Proof.
  revert d. induction tasks as [|task tasks IH]; intros d Hin.
  - rewrite decide_False by apply not_elem_of_nil. done.
  - cbn [foldl]. rewrite fmap_cons.
    assert (Htask : Task.id task ∈ keys d) by (apply Hin; left).
    assert (Hrest : forall t, t ∈ tasks ->
              Task.id t ∈ keys (set d (Task.id task) task)).
    { intros t Ht. rewrite keys_set. rewrite decide_True by done.
      apply Hin. by right. }
    destruct (decide (Task.id task = k)) as [<- | Hne].
    + rewrite set_set. rewrite decide_True by left. done.
    + rewrite (set_commute d k (Task.id task)) by done.
      rewrite IH by done.
      destruct (decide (k ∈ Task.id <$> tasks)) as [Hk | Hk].
      * rewrite decide_True by (by right). done.
      * rewrite decide_False; [done|].
        intros H. apply elem_of_cons in H as [? | ?]; [congruence | done].
Qed.

Lemma upsert_twice (d : dict UUID Task.t) (tasks : list Task.t) :
  foldl (fun d task => set d (Task.id task) task)
        (foldl (fun d task => set d (Task.id task) task) d tasks) tasks
  = foldl (fun d task => set d (Task.id task) task) d tasks.
Proof.
  revert d. induction tasks as [|task tasks IH]; intros d; [done|].
  cbn [foldl].
  set (d1 := set d (Task.id task) task).
  set (d' := foldl (fun d task => set d (Task.id task) task) d1 tasks).
  rewrite upsert_set.
  - fold d'. unfold d'. rewrite IH. fold d'.
    case_decide as Hk; [done|]. apply set_id.
    unfold d'. rewrite upsert_get.
    replace (filter (fun t => Task.id t = Task.id task) tasks) with (@nil Task.t).
    + simpl. unfold d1. apply get_set_eq.
    + symmetry. apply filter_none, Forall_forall.
      intros t Ht Heq. apply Hk. apply list_elem_of_fmap. by exists t.
  - intros t Ht. apply upsert_keys. right. apply list_elem_of_fmap. by exists t.
Qed.

(** X19. [upsert_tasks] is idempotent: giving the same tasks a second time
    leaves the store as the first time left it. *)
Theorem upsert_tasks_idempotent (self : InMemoryStore) (tasks : list Task.t) :
  upsert_tasks (upsert_tasks self tasks) tasks = upsert_tasks self tasks.
Proof.
  rewrite (upsert_tasks_fields (upsert_tasks self tasks)).
  rewrite !upsert_tasks_fields. simpl. by rewrite upsert_twice.
Qed.

Lemma seed_sample_tasks_not_empty (self : InMemoryStore)
    (fresh1 fresh2 fresh3 : UUID) (today : date) :
  _tasks (seed_sample_tasks fresh1 fresh2 fresh3 today self) <> [].
Proof.
  unfold seed_sample_tasks. destruct (_tasks self) as [|item items] eqn:Htasks.
  - rewrite upsert_tasks_fields. cbn [_tasks foldl]. apply set_not_nil.
  - by rewrite Htasks.
Qed.

(** X20. [seed_sample_tasks] seeds once: a second call, whatever
    identifiers and date it would use, changes nothing. *)
Theorem seed_sample_tasks_once (self : InMemoryStore)
    (fresh1 fresh2 fresh3 fresh4 fresh5 fresh6 : UUID) (today today' : date) :
  seed_sample_tasks fresh4 fresh5 fresh6 today'
    (seed_sample_tasks fresh1 fresh2 fresh3 today self)
  = seed_sample_tasks fresh1 fresh2 fresh3 today self.
Proof.
  pose proof (seed_sample_tasks_not_empty self fresh1 fresh2 fresh3 today) as Hne.
  unfold seed_sample_tasks at 1.
  by destruct (_tasks (seed_sample_tasks fresh1 fresh2 fresh3 today self)).
Qed.

(** X21. On a store without tasks, with three different identifiers,
    [seed_sample_tasks] leaves three tasks: two due today, one due
    tomorrow. *)
Theorem seed_sample_tasks_contents (self : InMemoryStore)
    (fresh1 fresh2 fresh3 : UUID) (today : date) :
  _tasks self = [] ->
  fresh1 <> fresh2 -> fresh1 <> fresh3 -> fresh2 <> fresh3 ->
  let seeded := seed_sample_tasks fresh1 fresh2 fresh3 today self in
  get_all_tasks seeded
  = [ Task.new fresh1 (lit "Review system design doc") today;
      Task.new fresh2 (lit "Write morning reflection") today;
      Task.new fresh3 (lit "Plan next week's priorities") (today + 1) ]
  /\ get_tasks_for_date seeded today
     = [ Task.new fresh1 (lit "Review system design doc") today;
         Task.new fresh2 (lit "Write morning reflection") today ]
  /\ get_tasks_for_date seeded (today + 1)
     = [ Task.new fresh3 (lit "Plan next week's priorities") (today + 1) ].
Proof.
  intros Hempty H12 H13 H23 seeded.
  assert (Hall : get_all_tasks seeded
    = [ Task.new fresh1 (lit "Review system design doc") today;
        Task.new fresh2 (lit "Write morning reflection") today;
        Task.new fresh3 (lit "Plan next week's priorities") (today + 1) ]).
  { unfold seeded, seed_sample_tasks, get_all_tasks. rewrite Hempty.
    rewrite upsert_tasks_fields, Hempty. simpl.
    rewrite !decide_False by done. simpl.
    by rewrite !decide_False by done. }
  split; [done|]. unfold get_tasks_for_date. unfold get_all_tasks in Hall.
  rewrite Hall. split.
  - rewrite !filter_cons. simpl.
    rewrite !decide_True by done.
    rewrite decide_False by (intros [= H]; lia). done.
  - rewrite !filter_cons. simpl.
    rewrite !(decide_False (P := Some today = Some (today + 1)))
      by (intros [= H]; lia).
    rewrite decide_True by done. done.
Qed.

Lemma seed_sample_tasks_contents_witness :
  _tasks init = []
  /\ 1%N <> 2%N /\ 1%N <> 3%N /\ 2%N <> 3%N
  /\ get_all_tasks (seed_sample_tasks 1 2 3 739007 init)
     = [ Task.new 1 (lit "Review system design doc") 739007;
         Task.new 2 (lit "Write morning reflection") 739007;
         Task.new 3 (lit "Plan next week's priorities") (739007 + 1) ]
  /\ get_tasks_for_date (seed_sample_tasks 1 2 3 739007 init) 739007
     = [ Task.new 1 (lit "Review system design doc") 739007;
         Task.new 2 (lit "Write morning reflection") 739007 ]
  /\ get_tasks_for_date (seed_sample_tasks 1 2 3 739007 init) (739007 + 1)
     = [ Task.new 3 (lit "Plan next week's priorities") (739007 + 1) ].
Proof.
  split; [reflexivity|]. split; [done|]. split; [done|]. split; [done|].
  apply (seed_sample_tasks_contents init 1 2 3 739007); done.
Defined.

End StorageLists.

(** ** Recent events and decisions *)

Section StorageRecent.
Import Storage.

Lemma recent_events_spec (self : InMemoryStore) (limit : Z) :
  recent_events self limit
  = if 0 <? limit
    then drop (length (_events self) - Z.to_nat limit) (_events self)
    else drop (Z.to_nat (- limit)) (_events self).
Proof.
  unfold recent_events, slice_from.
  destruct (Z.ltb_spec 0 limit) as [Hpos | Hneg].
  - rewrite (proj2 (Z.ltb_lt (- limit) 0)) by lia. f_equal. lia.
  - by rewrite (proj2 (Z.ltb_ge (- limit) 0)) by lia.
Qed.

(** X22. [recent_events] for every limit: a positive limit gives the last
    [limit] events, oldest first (all of them when there are fewer); a
    limit of zero gives the whole log; a negative limit [-k] gives the log
    without its [k] oldest events. *)
Theorem recent_events_slice (self : InMemoryStore) (limit : Z) :
  recent_events self limit
  = if 0 <? limit
    then drop (length (_events self) - Z.to_nat limit) (_events self)
    else drop (Z.to_nat (- limit)) (_events self).
Proof. apply recent_events_spec. Qed.

(** X23. An event just added is the last entry of [recent_events], for
    every limit of at least one. *)
Theorem recent_events_newest_last (self : InMemoryStore)
    (event : PlannerEvent.t) (limit : Z) :
  1 <= limit ->
  last (recent_events (add_event self event) limit) = Some event.
Proof.
  intros Hlimit. rewrite recent_events_spec.
  rewrite (proj2 (Z.ltb_lt 0 limit)) by lia. unfold add_event. simpl.
  rewrite length_app. simpl length.
  rewrite drop_app_le by lia. apply last_snoc.
Qed.

Lemma recent_events_newest_last_witness :
  1 <= 10
  /\ last (recent_events
             (add_event Examples.store_two_events (Examples.event 30)) 10)
     = Some (Examples.event 30).
Proof.
  split; [lia|].
  apply (recent_events_newest_last Examples.store_two_events
           (Examples.event 30) 10).
  lia.
Defined.

Lemma all_decisions_add (fresh : UUID) (self : InMemoryStore) (d : date)
    (decision : Decision.t) :
  all_decisions (add_decision fresh self d decision).2
  ≡ₚ decision :: all_decisions self.
Proof.
  unfold add_decision, get_or_create_session, all_decisions, values.
  destruct (get (_sessions self) d) as [session|] eqn:Hget; simpl.
  - destruct (get_Some_split _ _ _ Hget) as (l1 & l2 & Hd & _ & Hset).
    rewrite Hset, Hd, !fmap_app, !fmap_cons, !bind_app, !bind_cons. simpl.
    rewrite <- !app_assoc. simpl.
    rewrite (Permutation_middle (l1.*2 ≫= DailySession.decisions)).
    apply Permutation_app_head.
    rewrite (Permutation_middle (DailySession.decisions session)). done.
  - rewrite set_set. apply get_None_keys in Hget.
    rewrite set_absent by done.
    rewrite fmap_app, bind_app. simpl.
    by rewrite <- Permutation_cons_append.
Qed.

Lemma newest_is_head (l : list Decision.t) (x : Decision.t) :
  StronglySorted newer_first l ->
  x ∈ l ->
  (forall y, y ∈ l ->
     y = x \/ Decision.timestamp y < Decision.timestamp x) ->
  head l = Some x.
Proof.
  intros Hsorted Hin Hnew. destruct Hsorted as [|h t Ht Hh]; simpl.
  - by apply elem_of_nil in Hin.
  - destruct (Hnew h) as [-> | Hlt]; [left | done |].
    apply elem_of_cons in Hin as [-> | Hin]; [done|].
    rewrite Forall_forall in Hh. specialize (Hh x Hin).
    unfold newer_first in Hh. lia.
Qed.

(** X24. A decision added with a timestamp later than every decision kept
    is the first entry of [recent_decisions], for every limit of at least
    one, whatever the date it is added to. *)
Theorem recent_decisions_newest_first (fresh : UUID) (self : InMemoryStore)
    (d : date) (decision : Decision.t) (limit : Z) :
  Forall (fun kept => Decision.timestamp kept < Decision.timestamp decision)
         (all_decisions self) ->
  1 <= limit ->
  head (recent_decisions (add_decision fresh self d decision).2 limit)
  = Some decision.
Proof.
  intros Hnew Hlimit. unfold recent_decisions. rewrite foldl_extend. simpl.
  rewrite slice_to_nonneg by lia.
  set (self' := (add_decision fresh self d decision).2).
  set (ordered := sorted_reverse Decision.timestamp
                    (list_sessions self' ≫= DailySession.decisions)).
  assert (Hperm : ordered ≡ₚ decision :: all_decisions self).
  { unfold ordered. rewrite sorted_reverse_perm, list_sessions_perm.
    apply all_decisions_add. }
  assert (Hhead : head ordered = Some decision).
  { apply newest_is_head.
    - apply sorted_reverse_sorted.
    - rewrite Hperm. left.
    - intros y Hy. rewrite Hperm in Hy.
      apply elem_of_cons in Hy as [-> | Hy]; [by left|].
      right. rewrite Forall_forall in Hnew. by apply Hnew. }
  destruct ordered as [|x l]; [done|].
  replace (Z.to_nat limit) with (S (Z.to_nat limit - 1)) by lia. done.
Qed.

Lemma recent_decisions_newest_first_witness :
  Forall (fun kept => Decision.timestamp kept
                      < Decision.timestamp (Examples.decision 15%N 800))
         (all_decisions Examples.store_decisions)
  /\ 1 <= 5
  /\ head (recent_decisions
             (add_decision 9%N Examples.store_decisions 738990
                (Examples.decision 15%N 800)).2 5)
     = Some (Examples.decision 15%N 800).
Proof.
  assert (H : Forall (fun kept => Decision.timestamp kept
                      < Decision.timestamp (Examples.decision 15%N 800))
         (all_decisions Examples.store_decisions)).
  { repeat constructor. }
  split; [exact H|]. split; [lia|].
  apply (recent_decisions_newest_first 9%N Examples.store_decisions 738990
           (Examples.decision 15%N 800) 5 H).
  lia.
Defined.

(** X25. Levels out of range come with reflections only: as long as every
    check-in has a valid context and every reflection carries levels from
    1 to 5, every timeline stays within 1 to 5. *)
Theorem timeline_stays_in_range (self : InMemoryStore) (calls : list call)
    (d : date) :
  Forall in_range (timeline self d) ->
  Forall call_in_range calls ->
  Forall in_range (timeline (run self calls) d).
Proof. apply timeline_in_range. Qed.

Lemma timeline_stays_in_range_witness :
  Forall in_range (timeline init 739000)
  /\ Forall call_in_range Examples.calls_day
  /\ Forall in_range (timeline (run init Examples.calls_day) 739000).
Proof.
  assert (H1 : Forall in_range (timeline init 739000)) by constructor.
  assert (H2 : Forall call_in_range Examples.calls_day).
  { repeat constructor; unfold call_in_range, MorningContext.valid; simpl; lia. }
  split; [exact H1|]. split; [exact H2|].
  apply (timeline_stays_in_range init Examples.calls_day 739000 H1 H2).
Defined.

End StorageRecent.

(** ** Workflows *)

Section WorkflowFacts.
Import Workflow.
Variable isoformat : date -> str.

Lemma update_evening_reflection_result (fresh : UUID)
    (self : Storage.InMemoryStore) (d : date) (reflection : EveningReflection.t) :
  let result := Storage.update_evening_reflection fresh self d reflection in
  Storage.get_session result.2 d = Some result.1
  /\ DailySession.evening_reflection result.1 = Some reflection
  /\ DailySession.id result.1
     = DailySession.id (Storage.get_or_create_session fresh self d).1
  /\ Storage._events result.2 = Storage._events self.
Proof.
  unfold Storage.update_evening_reflection, Storage.get_or_create_session.
  destruct (get (Storage._sessions self) d); simpl;
    unfold Storage.get_session, Storage.store_session; simpl;
    by rewrite get_set_eq.
Qed.

Lemma add_interaction_get (today : str) (now : datetime)
    (self : Memory.MemoryService) (input response : str)
    (metadata : dict str object) :
  get (Memory._sessions
         (Memory.add_interaction today now self input response metadata))
      (Memory.bucket_key today metadata)
  = Some (default []
            (get (Memory._sessions self) (Memory.bucket_key today metadata))
          ++ [{| Memory.user_input := input; Memory.ai_response := response;
                 Memory.metadata := metadata; Memory.created_at := now |}]).
Proof.
  unfold Memory.add_interaction, Memory.setdefault_append.
  cbn [Memory._sessions].
  destruct (get (Memory._sessions self) (Memory.bucket_key today metadata));
    by rewrite get_set_eq.
Qed.

(** The key of a record whose metadata holds a date text and a type. *)
Lemma bucket_key_dated (today text kind : str) :
  text <> [] ->
  Memory.bucket_key today [(lit "date", Str text); (lit "type", Str kind)] = text
  /\ Memory.bucket_key today [(lit "type", Str kind); (lit "date", Str text)] = text.
Proof. destruct text as [|c text]; [done|]. intros _. split; reflexivity. Qed.

(** X26. An evening reflection leaves the reflection on the session of its
    date, appends one event that carries the identifier of that session,
    and files one record under the key of that date. The message of the
    response is the lines of the reflection joined by a line feed; the
    response kept in the record is the same lines joined by a space. *)
Theorem evening_reflection_effects (fresh : UUID) (now_event now_record : datetime)
    (today : date) (self : PlannerService) (payload : EveningReflectionRequest.t) :
  isoformat (EveningReflectionRequest.session_date payload) <> [] ->
  let result :=
    evening_reflection isoformat fresh now_event now_record today self payload in
  let d := EveningReflectionRequest.session_date payload in
  let session := EveningReflectionResponse.session result.1 in
  Storage.get_session (store result.2) d = Some session
  /\ Storage.evening_on (store result.2) d
     = Some {| EveningReflection.actual_focus :=
                 EveningReflectionRequest.actual_focus payload;
               EveningReflection.wins := EveningReflectionRequest.wins payload;
               EveningReflection.challenges :=
                 EveningReflectionRequest.challenges payload;
               EveningReflection.tomorrow_intent :=
                 EveningReflectionRequest.tomorrow_intent payload;
               EveningReflection.energy_pattern :=
                 EveningReflectionRequest.energy_pattern payload |}
  /\ Storage._events (store result.2)
     = Storage._events (store self)
       ++ [{| PlannerEvent.timestamp := now_event;
              PlannerEvent.session_id := DailySession.id session;
              PlannerEvent.description := lit "Evening reflection captured" |}]
  /\ EveningReflectionResponse.message result.1
     = join [LF] (reflection_lines payload)
  /\ get (Memory._sessions (memory result.2)) (isoformat d)
     = Some (default [] (get (Memory._sessions (memory self)) (isoformat d))
             ++ [{| Memory.user_input := lit "Evening reflection submitted";
                    Memory.ai_response :=
                      join (lit " ") (reflection_lines payload);
                    Memory.metadata :=
                      [ (lit "date", Str (isoformat d));
                        (lit "type", Str (lit "evening_reflection")) ];
                    Memory.created_at := now_record |}]).
Proof.
  intros Hiso result d session.
  unfold session, result, evening_reflection. fold d.
  set (reflection :=
    {| EveningReflection.actual_focus :=
         EveningReflectionRequest.actual_focus payload;
       EveningReflection.wins := EveningReflectionRequest.wins payload;
       EveningReflection.challenges :=
         EveningReflectionRequest.challenges payload;
       EveningReflection.tomorrow_intent :=
         EveningReflectionRequest.tomorrow_intent payload;
       EveningReflection.energy_pattern :=
         EveningReflectionRequest.energy_pattern payload |}).
  destruct (update_evening_reflection_result fresh (store self) d reflection)
    as (Hget & Hrefl & _ & Hev).
  destruct (Storage.update_evening_reflection fresh (store self) d reflection)
    as [s store1].
  cbn [fst snd store memory EveningReflectionResponse.session
       EveningReflectionResponse.message] in *.
  split; [exact Hget|]. split.
  { unfold Storage.evening_on, Storage.get_session, Storage.add_event in *.
    cbn [Storage._sessions]. by rewrite Hget. }
  split; [unfold Storage.add_event; cbn [Storage._events]; by rewrite Hev|].
  split; [reflexivity|].
  destruct (bucket_key_dated (isoformat today) (isoformat d)
              (lit "evening_reflection") Hiso) as [Hkey _].
  match goal with
  | |- get (Memory._sessions (Memory.add_interaction ?t ?n ?m ?u ?a ?md)) _ = _ =>
      pose proof (add_interaction_get t n m u a md) as Hadd
  end.
  rewrite Hkey in Hadd. exact Hadd.
Qed.

(** X27. A decision is kept on the session of today and names it: after
    [create_decision] today has a session, the decision carries the
    identifier of that session and is the last of its decisions; a
    session that was there before keeps its identifier and its earlier
    decisions. The related context is what the memory held before the
    decision itself is recorded. *)
Theorem create_decision_effects (fresh_session fresh_decision : UUID)
    (now_decision now_record : datetime) (today : date)
    (self : PlannerService) (payload : DecisionRequest.t) :
  let result :=
    create_decision isoformat fresh_session fresh_decision
      now_decision now_record today self payload in
  let decision := DecisionResponse.decision result.1 in
  (exists session,
     Storage.get_session (store result.2) today = Some session
     /\ Decision.session_id decision = DailySession.id session
     /\ DailySession.decisions session
        = Storage.decisions_on (store self) today ++ [decision]
     /\ forall existing,
          Storage.get_session (store self) today = Some existing ->
          DailySession.id session = DailySession.id existing)
  /\ DecisionResponse.related_context result.1
     = Memory.search_memories (memory self) (DecisionRequest.question payload) 5.
Proof.
  intros result decision. unfold decision, result, create_decision.
  pose proof (get_or_create_session_lookup fresh_session (store self) today)
    as Hget.
  destruct (get_or_create_session_fields fresh_session (store self) today)
    as (Hdec & _).
  assert (Hid : forall existing,
    Storage.get_session (store self) today = Some existing ->
    (Storage.get_or_create_session fresh_session (store self) today).1
    = existing).
  { intros existing He.
    by rewrite (get_or_create_session_existing _ _ _ _ He). }
  destruct (Storage.get_or_create_session fresh_session (store self) today)
    as [s store1].
  cbn [fst snd] in *.
  unfold Storage.add_decision.
  rewrite (get_or_create_session_existing _ _ _ _ Hget).
  cbn [fst snd store memory DecisionResponse.decision
       DecisionResponse.related_context].
  split; [|done]. eexists. split.
  { unfold Storage.get_session, Storage.store_session.
    cbn [Storage._sessions]. apply get_set_eq. }
  cbn [Decision.session_id DailySession.id DailySession.decisions].
  split; [done|]. split; [by rewrite Hdec|].
  intros existing He. by rewrite (Hid existing He).
Qed.

(** X4. Levels typed into the form cannot leave the range: a reflection
    whose samples come from [_parse_energy_pattern], whatever the two
    parsers accept, keeps a timeline that was within 1 to 5 within
    1 to 5. *)
Theorem form_reflection_in_range
    (strptime_time : str -> option time) (int_ : str -> option Z)
    (fresh : UUID) (now_event now_record : datetime) (today : date)
    (self : PlannerService) (payload : EveningReflectionRequest.t)
    (raw : str) (d : date) :
  EveningReflectionRequest.energy_pattern payload
  = Ui._parse_energy_pattern strptime_time int_ raw ->
  Forall Storage.in_range (Storage.timeline (store self) d) ->
  Forall Storage.in_range
    (Storage.timeline
       (store (evening_reflection isoformat fresh now_event now_record
                 today self payload).2) d).
Proof.
  intros Hraw Hrange. unfold evening_reflection.
  set (reflection :=
    {| EveningReflection.actual_focus :=
         EveningReflectionRequest.actual_focus payload;
       EveningReflection.wins := EveningReflectionRequest.wins payload;
       EveningReflection.challenges :=
         EveningReflectionRequest.challenges payload;
       EveningReflection.tomorrow_intent :=
         EveningReflectionRequest.tomorrow_intent payload;
       EveningReflection.energy_pattern :=
         EveningReflectionRequest.energy_pattern payload |}).
  pose proof (timeline_apply_call (store self)
    {| Storage.on_date := EveningReflectionRequest.session_date payload;
       Storage.fresh_id := fresh;
       Storage.what := Storage.Evening reflection |} d) as Hcall.
  unfold Storage.apply_call in Hcall. cbn [Storage.what Storage.on_date
    Storage.fresh_id] in Hcall.
  destruct (Storage.update_evening_reflection fresh (store self)
              (EveningReflectionRequest.session_date payload) reflection)
    as [s store1].
  cbn [fst snd store] in *.
  change (Storage.timeline (Storage.add_event store1 _) d)
    with (Storage.timeline store1 d).
  rewrite Hcall. apply Forall_app. split; [done|].
  unfold Storage.samples_for. cbn [Storage.what Storage.on_date].
  case_decide; [|constructor].
  unfold reflection. cbn [EveningReflection.energy_pattern].
  rewrite Hraw. apply parse_lines_in_range.
Qed.

End WorkflowFacts.

Section WorkflowWitnesses.
Import Workflow.

Lemma evening_reflection_effects_witness :
  Py.isoformat
    (EveningReflectionRequest.session_date Examples.reflection_request) <> []
  /\ let result :=
       evening_reflection Py.isoformat 1%N 10 20 739007 Examples.planner
         Examples.reflection_request in
     let d := EveningReflectionRequest.session_date Examples.reflection_request in
     let session := EveningReflectionResponse.session result.1 in
     Storage.get_session (store result.2) d = Some session
     /\ Storage.evening_on (store result.2) d
        = Some {| EveningReflection.actual_focus :=
                    EveningReflectionRequest.actual_focus
                      Examples.reflection_request;
                  EveningReflection.wins :=
                    EveningReflectionRequest.wins Examples.reflection_request;
                  EveningReflection.challenges :=
                    EveningReflectionRequest.challenges
                      Examples.reflection_request;
                  EveningReflection.tomorrow_intent :=
                    EveningReflectionRequest.tomorrow_intent
                      Examples.reflection_request;
                  EveningReflection.energy_pattern :=
                    EveningReflectionRequest.energy_pattern
                      Examples.reflection_request |}
     /\ Storage._events (store result.2)
        = Storage._events (store Examples.planner)
          ++ [{| PlannerEvent.timestamp := 10;
                 PlannerEvent.session_id := DailySession.id session;
                 PlannerEvent.description := lit "Evening reflection captured" |}]
     /\ EveningReflectionResponse.message result.1
        = join [LF] (reflection_lines Examples.reflection_request)
     /\ get (Memory._sessions (memory result.2)) (Py.isoformat d)
        = Some (default []
                  (get (Memory._sessions (memory Examples.planner))
                       (Py.isoformat d))
                ++ [{| Memory.user_input :=
                         lit "Evening reflection submitted";
                       Memory.ai_response :=
                         join (lit " ")
                              (reflection_lines Examples.reflection_request);
                       Memory.metadata :=
                         [ (lit "date", Str (Py.isoformat d));
                           (lit "type", Str (lit "evening_reflection")) ];
                       Memory.created_at := 20 |}]).
Proof.
  assert (H : Py.isoformat
    (EveningReflectionRequest.session_date Examples.reflection_request) <> [])
    by (vm_compute; congruence).
  split; [exact H|].
  apply (evening_reflection_effects Py.isoformat 1%N 10 20 739007 Examples.planner
           Examples.reflection_request H).
Defined.

Example evening_reflection_message :
  EveningReflectionResponse.message
    (evening_reflection Py.isoformat 1%N 10 20 739007 Examples.planner
       Examples.reflection_request).1
  = lit "Reflection stored." ++ [LF]
    ++ lit "Tomorrow you intend to: review" ++ [LF]
    ++ lit "Celebrated wins: spec drafted, ran 5 km, inbox zero".
Proof. reflexivity. Qed.

Example parse_energy_field :
  Ui._parse_energy_pattern Examples.parse_clock Examples.parse_level
    Examples.energy_field
  = [(540, 4); (1260, 2)].
Proof. reflexivity. Qed.

Lemma form_reflection_in_range_witness :
  EveningReflectionRequest.energy_pattern Examples.form_request
  = Ui._parse_energy_pattern Examples.parse_clock Examples.parse_level
      Examples.energy_field
  /\ Forall Storage.in_range
       (Storage.timeline (store Examples.planner) 739007)
  /\ Forall Storage.in_range
       (Storage.timeline
          (store (evening_reflection Py.isoformat 1%N 10 20 739007
                    Examples.planner Examples.form_request).2) 739007).
Proof.
  assert (H : Forall Storage.in_range
                (Storage.timeline (store Examples.planner) 739007))
    by constructor.
  split; [reflexivity|]. split; [exact H|].
  apply (form_reflection_in_range Py.isoformat Examples.parse_clock
           Examples.parse_level 1%N 10 20 739007 Examples.planner
           Examples.form_request Examples.energy_field 739007 eq_refl H).
Defined.

End WorkflowWitnesses.

(** ** The report and the review page *)

Section ReportFacts.
Import Planner.

Lemma filter_sorted {A} (R : A -> A -> Prop) (P : A -> Prop)
    `{forall x, Decision (P x)} (l : list A) :
  StronglySorted R l -> StronglySorted R (filter P l).
Proof.
  induction 1 as [|x l Hl IH Hx]; [constructor|].
  rewrite filter_cons. case_decide; [|done].
  constructor; [done|]. apply Forall_forall. intros y Hy.
  apply list_elem_of_filter in Hy as [_ Hy].
  rewrite Forall_forall in Hx. by apply Hx.
Qed.

Lemma filter_by_key (sessions : list (date * DailySession.t)) (lo hi : date) :
  Forall (fun item => DailySession.date item.2 = item.1) sessions ->
  filter (fun session => lo <= DailySession.date session
                         /\ DailySession.date session <= hi) sessions.*2
  = (filter (fun item : date * DailySession.t => lo <= item.1 /\ item.1 <= hi)
            sessions).*2.
Proof.
  induction 1 as [|[k v] sessions Hkv _ IH]; [done|].
  rewrite fmap_cons, !filter_cons. simpl in *. rewrite Hkv.
  case_decide; [|done]. rewrite fmap_cons. simpl. by rewrite IH.
Qed.

(** X28. The review page lists the sessions the weekly report is computed
    from: in a store that keeps each session under its own date, the
    sessions of [weekly_review] are those of [get_sessions_between] for
    the same seven days, put newest first. *)
Theorem review_sessions_window (today : date) (store : Storage.InMemoryStore) :
  Storage.well_keyed store ->
  Ui.review_sessions today store
  ≡ₚ Storage.get_sessions_between store (today - 6) today
  /\ StronglySorted
       (fun a b => DailySession.date b <= DailySession.date a)
       (Ui.review_sessions today store).
Proof.
  intros (_ & Hkeys & _). unfold Ui.review_sessions. split.
  - rewrite list_sessions_perm. unfold Storage.get_sessions_between, values.
    by rewrite filter_by_key.
  - apply filter_sorted, sorted_reverse_sorted.
Qed.

Lemma review_sessions_window_witness :
  Storage.well_keyed Examples.store_week
  /\ Ui.review_sessions 739001 Examples.store_week
     ≡ₚ Storage.get_sessions_between Examples.store_week (739001 - 6) 739001
  /\ StronglySorted
       (fun a b => DailySession.date b <= DailySession.date a)
       (Ui.review_sessions 739001 Examples.store_week).
Proof.
  assert (H : Storage.well_keyed Examples.store_week).
  { apply run_well_keyed, well_keyed_init. }
  split; [exact H|].
  apply (review_sessions_window 739001 Examples.store_week H).
Defined.

(** X29. The highlights of the weekly report: the days named as high-energy
    days are the dates of the sessions of the last seven days that hold a
    sample of level four or more, in the order of the store, and the line
    is left out when there is none; the count is the number of those
    sessions that have a reflection. *)
Theorem weekly_patterns_highlight_lines (today : date)
    (store : Storage.InMemoryStore) :
  let sessions := Storage.get_sessions_between store (today - 6) today in
  let days :=
    DailySession.date <$> filter (fun s => is_high_energy s) sessions in
  highlights (weekly_patterns today store)
  = match days with [] => [] | _ :: _ => [HighEnergyOn days] end
    ++ [CapturedReflections
          (Z.of_nat (length (filter (fun s =>
                       is_Some (DailySession.evening_reflection s)) sessions)))]
  /\ forall day,
       day ∈ days
       <-> exists session at_ level,
             session ∈ sessions
             /\ DailySession.date session = day
             /\ (at_, level) ∈ DailySession.energy_pattern session
             /\ 4 <= level.
Proof.
  intros sessions days. split; [apply weekly_patterns_highlights|].
  intros day. unfold days. rewrite list_elem_of_fmap. split.
  - intros [session [-> Hs]]. apply list_elem_of_filter in Hs as [Hhigh Hs].
    apply Is_true_true, is_high_energy_spec in Hhigh as [level [Hl H4]].
    unfold levels in Hl. apply list_elem_of_fmap in Hl as [[at_ l] [-> Hl]].
    by exists session, at_, l.
  - intros (session & at_ & level & Hs & <- & Hl & H4).
    exists session. split; [done|]. apply list_elem_of_filter. split; [|done].
    apply Is_true_true, is_high_energy_spec. exists level. split; [|done].
    unfold levels. apply list_elem_of_fmap. by exists (at_, level).
Qed.

Lemma sum_bounds (l : list Z) :
  Forall (fun level => 1 <= level <= 5) l ->
  Z.of_nat (length l) <= sum l <= 5 * Z.of_nat (length l).
Proof.
  induction 1 as [|x l Hx _ IH]; [done|].
  rewrite sum_cons. simpl length. lia.
Qed.

Lemma mean_bounds (l : list Z) :
  l <> [] ->
  Forall (fun level => 1 <= level <= 5) l ->
  (1 <= inject_Z (sum l) / inject_Z (Z.of_nat (length l)) <= 5)%Q.
Proof.
  intros Hne Hall. pose proof (sum_bounds l Hall) as [Hlo Hhi].
  assert (Hpos : (0 < inject_Z (Z.of_nat (length l)))%Q).
  { rewrite <- (Zlt_Qlt 0). destruct l; [done | simpl; lia]. }
  split.
  - apply Qle_shift_div_l; [done|]. rewrite Qmult_1_l.
    by rewrite <- Zle_Qle.
  - apply Qle_shift_div_r; [done|].
    change 5%Q with (inject_Z 5). rewrite <- inject_Z_mult.
    by rewrite <- Zle_Qle.
Qed.

(** X30. With levels from 1 to 5, the weekly report shows a mean exactly
    when the last seven days hold a sample, and the mean it shows lies
    between 1 and 5. *)
Theorem weekly_patterns_mean (today : date) (store : Storage.InMemoryStore) :
  let sessions := Storage.get_sessions_between store (today - 6) today in
  let points := sessions ≫= levels in
  Forall (fun level => 1 <= level <= 5) points ->
  (points = [] -> energy_trends (weekly_patterns today store) = [])
  /\ (points <> [] ->
      exists q,
        energy_trends (weekly_patterns today store) = [AverageRecordedEnergy q]
        /\ (1 <= q <= 5)%Q).
Proof.
  intros sessions points Hall.
  assert (Hone : Forall (fun level => 1 <= level) points).
  { eapply Forall_impl; [exact Hall|]. simpl. intros level H. lia. }
  rewrite (weekly_patterns_average today store Hone).
  fold sessions. rewrite _average_energy_spec. fold points. split.
  - by intros ->.
  - intros Hne. destruct points as [|x l] eqn:Hp; [done|].
    eexists. split; [reflexivity|]. by apply mean_bounds.
Qed.

Lemma weekly_patterns_mean_witness :
  Forall (fun level => 1 <= level <= 5)
    (Storage.get_sessions_between Examples.store_week (739001 - 6) 739001
     ≫= levels)
  /\ (Storage.get_sessions_between Examples.store_week (739001 - 6) 739001
      ≫= levels = [] ->
      energy_trends (weekly_patterns 739001 Examples.store_week) = [])
  /\ (Storage.get_sessions_between Examples.store_week (739001 - 6) 739001
      ≫= levels <> [] ->
      exists q,
        energy_trends (weekly_patterns 739001 Examples.store_week)
        = [AverageRecordedEnergy q]
        /\ (1 <= q <= 5)%Q).
Proof.
  assert (H : Forall (fun level => 1 <= level <= 5)
    (Storage.get_sessions_between Examples.store_week (739001 - 6) 739001
     ≫= levels)).
  { assert (Hp : Storage.get_sessions_between Examples.store_week
                   (739001 - 6) 739001 ≫= levels = [2; 4]) by reflexivity.
    rewrite Hp. apply Forall_cons. split; [lia|].
    apply Forall_cons. split; [lia | constructor]. }
  split; [exact H|].
  apply (weekly_patterns_mean 739001 Examples.store_week H).
Defined.

End ReportFacts.
